(** * The Todo domain service of llm-todo-app

    A shallow embedding of [app/db/model] (the Todo entity, its request shapes
    and the priority enumeration) and of [app/service/todo_service.go] (the
    eight service operations), over a model of the relational store the
    service talks to through its [*gorm.DB] handle. *)

From Stdlib Require Import NArith ZArith Ascii String DecimalString DecimalN.
From stdpp Require Import base numbers list sorting strings gmap.

Local Open Scope string_scope.
Local Open Scope N_scope.

(** ** Package model *)

(** [time.Time], counted in clock ticks. *)
Definition Time := N.

Module model.

(** [type Priority string] *)
Definition Priority := string.

Definition PriorityLow : Priority := "low".
Definition PriorityMedium : Priority := "medium".
Definition PriorityHigh : Priority := "high".
Definition PriorityUrgent : Priority := "urgent".

(** [func (p Priority) IsValid() bool]: a [switch] over the four constants. *)
Definition IsValid (p : Priority) : bool :=
  if String.eqb p PriorityLow then true
  else if String.eqb p PriorityMedium then true
  else if String.eqb p PriorityHigh then true
  else if String.eqb p PriorityUrgent then true
  else false.

(** [type Todo struct]; [ID] is Go's [uint], [DueDate] a nullable pointer,
    [DeletedAt] gorm's nullable soft-delete marker. *)
Module Todo.
Record t := mk {
  ID : N;
  Title : string;
  Description : string;
  Completed : bool;
  Priority : model.Priority;
  DueDate : option Time;
  CreatedAt : Time;
  UpdatedAt : Time;
  DeletedAt : option Time
}.

(** Go's zero value [Todo{}]. *)
Definition zero : t := mk 0 EmptyString EmptyString false EmptyString None 0 0 None.

Definition with_ID (v : N) (x : t) : t :=
  mk v (Title x) (Description x) (Completed x) (Priority x) (DueDate x)
     (CreatedAt x) (UpdatedAt x) (DeletedAt x).
Definition with_Title (v : string) (x : t) : t :=
  mk (ID x) v (Description x) (Completed x) (Priority x) (DueDate x)
     (CreatedAt x) (UpdatedAt x) (DeletedAt x).
Definition with_Description (v : string) (x : t) : t :=
  mk (ID x) (Title x) v (Completed x) (Priority x) (DueDate x)
     (CreatedAt x) (UpdatedAt x) (DeletedAt x).
Definition with_Completed (v : bool) (x : t) : t :=
  mk (ID x) (Title x) (Description x) v (Priority x) (DueDate x)
     (CreatedAt x) (UpdatedAt x) (DeletedAt x).
Definition with_Priority (v : model.Priority) (x : t) : t :=
  mk (ID x) (Title x) (Description x) (Completed x) v (DueDate x)
     (CreatedAt x) (UpdatedAt x) (DeletedAt x).
Definition with_DueDate (v : option Time) (x : t) : t :=
  mk (ID x) (Title x) (Description x) (Completed x) (Priority x) v
     (CreatedAt x) (UpdatedAt x) (DeletedAt x).
Definition with_CreatedAt (v : Time) (x : t) : t :=
  mk (ID x) (Title x) (Description x) (Completed x) (Priority x) (DueDate x)
     v (UpdatedAt x) (DeletedAt x).
Definition with_UpdatedAt (v : Time) (x : t) : t :=
  mk (ID x) (Title x) (Description x) (Completed x) (Priority x) (DueDate x)
     (CreatedAt x) v (DeletedAt x).
Definition with_DeletedAt (v : option Time) (x : t) : t :=
  mk (ID x) (Title x) (Description x) (Completed x) (Priority x) (DueDate x)
     (CreatedAt x) (UpdatedAt x) v.
End Todo.

(** [type TodoCreateRequest struct] *)
Module TodoCreateRequest.
Record t := mk {
  Title : string;
  Description : string;
  Priority : model.Priority;
  DueDate : option Time
}.

Definition with_Priority (v : model.Priority) (x : t) : t :=
  mk (Title x) (Description x) v (DueDate x).
End TodoCreateRequest.

(** [type TodoUpdateRequest struct]: every field a pointer, [None] is nil. *)
Module TodoUpdateRequest.
Record t := mk {
  Title : option string;
  Description : option string;
  Completed : option bool;
  Priority : option model.Priority;
  DueDate : option Time
}.

(** The request of an empty JSON body: every field nil. *)
Definition empty : t := mk None None None None None.
End TodoUpdateRequest.

(** [type TodoResponse struct]: the entity without its soft-delete marker. *)
Module TodoResponse.
Record t := mk {
  ID : N;
  Title : string;
  Description : string;
  Completed : bool;
  Priority : model.Priority;
  DueDate : option Time;
  CreatedAt : Time;
  UpdatedAt : Time
}.
End TodoResponse.

(** [func (t *Todo) ToResponse() *TodoResponse] *)
Definition ToResponse (t : Todo.t) : TodoResponse.t :=
  TodoResponse.mk (Todo.ID t) (Todo.Title t) (Todo.Description t)
                  (Todo.Completed t) (Todo.Priority t) (Todo.DueDate t)
                  (Todo.CreatedAt t) (Todo.UpdatedAt t).

End model.

(** ** The relational store behind [*gorm.DB] *)

Module gorm.
Import model.

(** [result.Error]: gorm's sentinel for an empty [First], or any other
    failure of the statement. *)
Inductive error :=
| ErrRecordNotFound
| ErrStatement.

(** The [todos] table and what the service can observe of its server: the
    sequence behind the primary key, the clock that stamps rows, and whether
    the next read or write statement fails (lost connection, violated
    column constraint, ...), which the service cannot influence. *)
Record DB := mkDB {
  todos : list Todo.t;
  next_id : N;
  now : Time;
  read_fault : bool;
  write_fault : bool
}.

(** The environment moves the clock between two calls. *)
Definition at_time (t : Time) (db : DB) : DB :=
  mkDB (todos db) (next_id db) t (read_fault db) (write_fault db).

Definition with_todos (rows : list Todo.t) (db : DB) : DB :=
  mkDB rows (next_id db) (now db) (read_fault db) (write_fault db).

(** What a finished statement reports: [result.Error], [result.RowsAffected]. *)
Record Result := mkResult {
  Error : option error;
  RowsAffected : N
}.

(** The soft-delete scope gorm adds to every query on a model with a
    [DeletedAt] field: [deleted_at IS NULL]. *)
Definition live (r : Todo.t) : bool :=
  match Todo.DeletedAt r with None => true | Some _ => false end.

(** [WHERE id = ? AND deleted_at IS NULL] *)
Definition live_with_id (id : N) (r : Todo.t) : bool :=
  live r && (Todo.ID r =? id).

(** An [ORDER BY] clause as the test "may come before". *)
Definition precedes (ord : Todo.t -> Todo.t -> bool) : relation Todo.t :=
  fun a b => ord a b = true.

#[global] Instance precedes_dec (ord : Todo.t -> Todo.t -> bool) :
  RelDecision (precedes ord).
Proof. intros a b. unfold precedes. apply bool_eq_dec. Defined.

(** [ORDER BY created_at DESC] *)
Definition created_at_DESC (a b : Todo.t) : bool :=
  Todo.CreatedAt b <=? Todo.CreatedAt a.

(** [ORDER BY updated_at DESC] *)
Definition updated_at_DESC (a b : Todo.t) : bool :=
  Todo.UpdatedAt b <=? Todo.UpdatedAt a.

(** [ORDER BY priority DESC, created_at DESC]: the column is a [varchar],
    compared as text. *)
Definition priority_DESC_created_at_DESC (a b : Todo.t) : bool :=
  match String.compare (Todo.Priority a) (Todo.Priority b) with
  | Gt => true
  | Lt => false
  | Eq => Todo.CreatedAt b <=? Todo.CreatedAt a
  end.

(** Modelled from the spec: the store's "find-all / find-by-predicate with
    ordering, filtered to exclude soft-deleted rows by default", reached as
    [db.Where(..).Order(..).Find(&todos)]. *)
Definition Find (where_ : Todo.t -> bool) (order : Todo.t -> Todo.t -> bool)
    (db : DB) : Result * list Todo.t :=
  if read_fault db then (mkResult (Some ErrStatement) 0, [])
  else
    let rows :=
      merge_sort (precedes order)
                 (filter (fun r => live r && where_ r = true) (todos db)) in
    (mkResult None (N.of_nat (length rows)), rows).

(** Modelled from the spec: "find-by-identifier, same soft-delete
    exclusion", reached as [db.First(&todo, id)] with [todo] a fresh
    zero-valued variable, which stays as it is when no row is read. *)
Definition First (id : N) (db : DB) : Result * Todo.t :=
  if read_fault db then (mkResult (Some ErrStatement) 0, Todo.zero)
  else
    match List.find (live_with_id id) (todos db) with
    | Some r => (mkResult None 1, r)
    | None => (mkResult (Some ErrRecordNotFound) 0, Todo.zero)
    end.

(** Modelled from the spec: "insert with auto-assigned identifier and
    created/updated timestamps", reached as [db.Create(todo)]. The
    identifier comes from the table's sequence; a key that is already
    taken makes the insert fail. The filled-in entity is handed back, as
    gorm writes it through the pointer. *)
Definition Create (x : Todo.t) (db : DB) : DB * Result * Todo.t :=
  if write_fault db then (db, mkResult (Some ErrStatement) 0, x)
  else if existsb (fun r => Todo.ID r =? next_id db) (todos db) then
    (mkDB (todos db) (N.succ (next_id db)) (now db)
          (read_fault db) (write_fault db),
     mkResult (Some ErrStatement) 0, x)
  else
    let row :=
      Todo.with_ID (next_id db)
        (Todo.with_CreatedAt (now db) (Todo.with_UpdatedAt (now db) x)) in
    (mkDB (todos db ++ [row]) (N.succ (next_id db)) (now db)
          (read_fault db) (write_fault db),
     mkResult None 1, row).

(** Modelled from the spec: "full-row update by identifier, refreshing the
    updated timestamp", reached as [db.Save(todo)]. *)
Definition Save (x : Todo.t) (db : DB) : DB * Result * Todo.t :=
  if write_fault db then (db, mkResult (Some ErrStatement) 0, x)
  else
    let row := Todo.with_UpdatedAt (now db) x in
    let hit := live_with_id (Todo.ID x) in
    (with_todos (map (fun r => if hit r then row else r) (todos db)) db,
     mkResult None (N.of_nat (length (filter (fun r => hit r = true) (todos db)))),
     row).

(** Modelled from the spec: "soft-delete by identifier, reporting the count
    of rows actually affected (0 meaning already gone)", reached as
    [db.Delete(&model.Todo{}, id)]. *)
Definition Delete (id : N) (db : DB) : DB * Result :=
  if write_fault db then (db, mkResult (Some ErrStatement) 0)
  else
    let hit := live_with_id id in
    (with_todos
       (map (fun r => if hit r then Todo.with_DeletedAt (Some (now db)) r else r)
            (todos db)) db,
     mkResult None (N.of_nat (length (filter (fun r => hit r = true) (todos db))))).

End gorm.

(** ** Package service *)

Module service.
Import model.

(** The store statement a wrapped error names in its message. *)
Inductive operation :=
| Fetch                        (* "Todoの取得に失敗しました: %w" *)
| Insert                       (* "Todoの作成に失敗しました: %w" *)
| Update                       (* "Todoの更新に失敗しました: %w" *)
| Remove                       (* "Todoの削除に失敗しました: %w" *)
| FetchByPriority (p : Priority)
                               (* "優先度 %s のTodo取得に失敗しました: %w" *)
| FetchCompleted               (* "完了済みTodoの取得に失敗しました: %w" *)
| FetchPending.                (* "未完了Todoの取得に失敗しました: %w" *)

(** The errors the service builds with [fmt.Errorf], by message. *)
Inductive Error :=
| ValidationError (p : Priority)      (* "無効な優先度です: %s" *)
| NotFoundError (id : N)              (* "ID %d のTodoが見つかりません" *)
| AlreadyDeletedError (id : N)
                               (* "ID %d のTodoは既に削除されています" *)
| StoreError (op : operation) (cause : gorm.error).

(** A Go result pair [(value, error)]. *)
Inductive result (A : Type) :=
| Ok (a : A)
| Err (e : Error).
Arguments Ok {A} a.
Arguments Err {A} e.

(** [func (s *todoService) GetAllTodos()] *)
Definition GetAllTodos (db : gorm.DB) : result (list Todo.t) :=
  let '(res, todos) := gorm.Find (fun _ => true) gorm.created_at_DESC db in
  match gorm.Error res with
  | Some e => Err (StoreError Fetch e)
  | None => Ok todos
  end.

(** [func (s *todoService) GetTodoByID(id uint)] *)
Definition GetTodoByID (id : N) (db : gorm.DB) : result Todo.t :=
  let '(res, todo) := gorm.First id db in
  match gorm.Error res with
  | Some gorm.ErrRecordNotFound => Err (NotFoundError id)
  | Some e => Err (StoreError Fetch e)
  | None => Ok todo
  end.

(** [func (s *todoService) CreateTodo(req *model.TodoCreateRequest)].
    The request is passed by pointer and written to, so the request as the
    caller finds it afterwards is part of the outcome. *)
Definition CreateTodo (req : TodoCreateRequest.t) (db : gorm.DB)
    : TodoCreateRequest.t * gorm.DB * result Todo.t :=
  if negb (String.eqb (TodoCreateRequest.Priority req) EmptyString)
     && negb (IsValid (TodoCreateRequest.Priority req))
  then (req, db, Err (ValidationError (TodoCreateRequest.Priority req)))
  else
    let req :=
      if String.eqb (TodoCreateRequest.Priority req) EmptyString
      then TodoCreateRequest.with_Priority PriorityMedium req
      else req in
    let todo :=
      Todo.mk 0 (TodoCreateRequest.Title req) (TodoCreateRequest.Description req)
              false (TodoCreateRequest.Priority req) (TodoCreateRequest.DueDate req)
              0 0 None in
    let '(db', res, todo) := gorm.Create todo db in
    match gorm.Error res with
    | Some e => (req, db', Err (StoreError Insert e))
    | None => (req, db', Ok todo)
    end.

(** The field assignments of [UpdateTodo] in source order; the priority
    check returns from the function before the due date is looked at. *)
Definition apply_update (req : TodoUpdateRequest.t) (todo : Todo.t)
    : result Todo.t :=
  let todo :=
    match TodoUpdateRequest.Title req with
    | Some v => Todo.with_Title v todo
    | None => todo
    end in
  let todo :=
    match TodoUpdateRequest.Description req with
    | Some v => Todo.with_Description v todo
    | None => todo
    end in
  let todo :=
    match TodoUpdateRequest.Completed req with
    | Some v => Todo.with_Completed v todo
    | None => todo
    end in
  match
    match TodoUpdateRequest.Priority req with
    | Some p =>
      if negb (IsValid p) then Err (ValidationError p)
      else Ok (Todo.with_Priority p todo)
    | None => Ok todo
    end
  with
  | Err e => Err e
  | Ok todo =>
    Ok match TodoUpdateRequest.DueDate req with
       | Some v => Todo.with_DueDate (Some v) todo
       | None => todo
       end
  end.

(** [func (s *todoService) UpdateTodo(id uint, req *model.TodoUpdateRequest)] *)
Definition UpdateTodo (id : N) (req : TodoUpdateRequest.t) (db : gorm.DB)
    : gorm.DB * result Todo.t :=
  match GetTodoByID id db with
  | Err e => (db, Err e)
  | Ok todo =>
    match apply_update req todo with
    | Err e => (db, Err e)
    | Ok todo =>
      let '(db', res, todo) := gorm.Save todo db in
      match gorm.Error res with
      | Some e => (db', Err (StoreError Update e))
      | None => (db', Ok todo)
      end
    end
  end.

(** [DeleteTodo] from its [s.db.Delete] statement on: what runs once the
    existence check has passed. *)
Definition DeleteTodo_statement (id : N) (db : gorm.DB)
    : gorm.DB * result unit :=
  let '(db', res) := gorm.Delete id db in
  match gorm.Error res with
  | Some e => (db', Err (StoreError Remove e))
  | None =>
    if gorm.RowsAffected res =? 0
    then (db', Err (AlreadyDeletedError id))
    else (db', Ok tt)
  end.

(** [func (s *todoService) DeleteTodo(id uint)] *)
Definition DeleteTodo (id : N) (db : gorm.DB) : gorm.DB * result unit :=
  match GetTodoByID id db with
  | Err e => (db, Err e)
  | Ok _ => DeleteTodo_statement id db
  end.

(** [func (s *todoService) GetTodosByPriority(priority model.Priority)] *)
Definition GetTodosByPriority (priority : Priority) (db : gorm.DB)
    : result (list Todo.t) :=
  if negb (IsValid priority) then Err (ValidationError priority)
  else
    let '(res, todos) :=
      gorm.Find (fun r => String.eqb (Todo.Priority r) priority)
                gorm.created_at_DESC db in
    match gorm.Error res with
    | Some e => Err (StoreError (FetchByPriority priority) e)
    | None => Ok todos
    end.

(** [func (s *todoService) GetCompletedTodos()] *)
Definition GetCompletedTodos (db : gorm.DB) : result (list Todo.t) :=
  let '(res, todos) :=
    gorm.Find (fun r => Bool.eqb (Todo.Completed r) true)
              gorm.updated_at_DESC db in
  match gorm.Error res with
  | Some e => Err (StoreError FetchCompleted e)
  | None => Ok todos
  end.

(** [func (s *todoService) GetPendingTodos()] *)
Definition GetPendingTodos (db : gorm.DB) : result (list Todo.t) :=
  let '(res, todos) :=
    gorm.Find (fun r => Bool.eqb (Todo.Completed r) false)
              gorm.priority_DESC_created_at_DESC db in
  match gorm.Error res with
  | Some e => Err (StoreError FetchPending e)
  | None => Ok todos
  end.

End service.

(** ** Package db: connection settings *)

Module database.

(** [type DatabaseConfig struct] *)
Record DatabaseConfig := mkConfig {
  Host : string;
  Port : string;
  User : string;
  Password : string;
  DBName : string;
  SSLMode : string
}.

(** [os.Getenv]: the value of a variable of the process environment, the
    empty string when the variable is not set. *)
Definition Getenv (key : string) (env : gmap string string) : string :=
  default EmptyString (env !! key).

(** [func getEnv(key, defaultValue string) string] *)
Definition getEnv (key defaultValue : string) (env : gmap string string) : string :=
  let value := Getenv key env in
  if negb (String.eqb value EmptyString) then value else defaultValue.

(** [func GetDefaultConfig() *DatabaseConfig] *)
Definition GetDefaultConfig (env : gmap string string) : DatabaseConfig :=
  mkConfig (getEnv "DB_HOST" "localhost" env)
           (getEnv "DB_PORT" "5432" env)
           (getEnv "DB_USER" "user" env)
           (getEnv "DB_PASSWORD" "password" env)
           (getEnv "DB_NAME" "myapp" env)
           (getEnv "DB_SSLMODE" "disable" env).

(** [func (config *DatabaseConfig) BuildDSN() string]: the [%s] verbs of
    [fmt.Sprintf] paste the fields in as they are. *)
Definition BuildDSN (config : DatabaseConfig) : string :=
  "host=" ++ Host config ++ " port=" ++ Port config ++
  " user=" ++ User config ++ " password=" ++ Password config ++
  " dbname=" ++ DBName config ++ " sslmode=" ++ SSLMode config.

End database.

(** ** Formatting *)

Module fmt.

(** The verb [%d] on an unsigned integer: its decimal digits. *)
Definition d (n : N) : string := NilZero.string_of_uint (N.to_uint n).

(** The verb [%d] on a signed integer. *)
Definition d_int (z : Z) : string :=
  if (z <? 0)%Z then "-" ++ d (Z.to_N (- z)) else d (Z.to_N z).

End fmt.

(** ** Functions of Go's standard library the handlers call *)

Module gostrings.

(** [strings.HasPrefix]: [s] begins with [prefix], byte by byte. *)
Fixpoint HasPrefix (s prefix : string) : bool :=
  match prefix with
  | EmptyString => true
  | String p prefix' =>
    match s with
    | EmptyString => false
    | String c s' => Ascii.eqb c p && HasPrefix s' prefix'
    end
  end.

(** [strings.Contains]: [substr] occurs somewhere within [s]. *)
Fixpoint Contains (s substr : string) : bool :=
  HasPrefix s substr ||
  match s with
  | EmptyString => false
  | String _ s' => Contains s' substr
  end.

End gostrings.

Module strconv.

(** The value of a run of decimal digits, continuing from [acc]; nothing
    when some byte is not a digit. *)
Fixpoint digits_value (acc : N) (s : string) : option N :=
  match s with
  | EmptyString => Some acc
  | String c s' =>
    if (48 <=? N_of_ascii c) && (N_of_ascii c <=? 57)
    then digits_value (10 * acc + (N_of_ascii c - 48)) s'
    else None
  end.

(** [strconv.ParseUint(s, 10, 32)]: a non-empty run of decimal digits
    whose value fits 32 bits; [None] stands for a non-nil error. *)
Definition ParseUint_10_32 (s : string) : option N :=
  match s with
  | EmptyString => None
  | _ =>
    match digits_value 0 s with
    | Some n => if n <=? 4294967295 then Some n else None
    | None => None
    end
  end.

End strconv.

(** ** Package handler: the Huma binding and the router binding *)

Module handler.
Import model.

(** The conversion [uint(x)] of a Go [int] on a 64-bit platform. *)
Definition uint_of_int (x : Z) : N := Z.to_N (x mod 2 ^ 64).

(** [type TodoQueryRequest struct] *)
Record TodoQueryRequest := mkQuery {
  query_Priority : string;
  query_Completed : string
}.

(** [type TodoIDRequest struct]; [ID] is a Go [int]. *)
Record TodoIDRequest := mkID { path_ID : Z }.

(** [type TodoCreateRequest struct] of the handler package. *)
Record TodoCreateRequest := mkCreate { create_Body : model.TodoCreateRequest.t }.

(** [type TodoUpdateRequest struct] of the handler package. *)
Record TodoUpdateRequest := mkUpdate {
  update_ID : Z;
  update_Body : model.TodoUpdateRequest.t
}.

(** [type TodoListResponse struct], its [Body]. *)
Record TodoListResponse := mkList {
  list_Data : list TodoResponse.t;
  list_Message : string;
  list_Count : Z
}.

(** [type TodoResponse struct] of the handler package, its [Body]. *)
Record TodoResponse := mkOne {
  one_Data : TodoResponse.t;
  one_Message : string
}.

(** [type DeleteResponse struct], its [Body]. *)
Record DeleteResponse := mkDeleted { deleted_Message : string }.

(** What [huma.Error404NotFound] and its siblings build: the HTTP status
    and the detail message. *)
Record StatusError := mkStatus {
  Status : N;
  Detail : string
}.

Definition Error400BadRequest (msg : string) : StatusError := mkStatus 400 msg.
Definition Error404NotFound (msg : string) : StatusError := mkStatus 404 msg.
Definition Error500InternalServerError (msg : string) : StatusError :=
  mkStatus 500 msg.

(** A handler's result pair [(response, error)]. *)
Inductive reply (A : Type) :=
| Response (a : A)
| Failure (e : StatusError).
Arguments Response {A} a.
Arguments Failure {A} e.

Section texts.

(** The text of the store's own error for a failed statement, which the
    service wraps with [%w]; it is the driver's and not known here. *)
Variable statement_text : string.

(** [result.Error.Error()] *)
Definition cause_text (c : gorm.error) : string :=
  match c with
  | gorm.ErrRecordNotFound => "record not found"
  | gorm.ErrStatement => statement_text
  end.

(** The format each wrapped store error starts with, up to its [: %w]. *)
Definition operation_text (op : service.operation) : string :=
  match op with
  | service.Fetch => "Todoの取得に失敗しました"
  | service.Insert => "Todoの作成に失敗しました"
  | service.Update => "Todoの更新に失敗しました"
  | service.Remove => "Todoの削除に失敗しました"
  | service.FetchByPriority p => "優先度 " ++ p ++ " のTodo取得に失敗しました"
  | service.FetchCompleted => "完了済みTodoの取得に失敗しました"
  | service.FetchPending => "未完了Todoの取得に失敗しました"
  end.

(** [err.Error()] for the errors the service builds with [fmt.Errorf]. *)
Definition Error_text (e : service.Error) : string :=
  match e with
  | service.ValidationError p => "無効な優先度です: " ++ p
  | service.NotFoundError id => "ID " ++ fmt.d id ++ " のTodoが見つかりません"
  | service.AlreadyDeletedError id =>
    "ID " ++ fmt.d id ++ " のTodoは既に削除されています"
  | service.StoreError op c => operation_text op ++ ": " ++ cause_text c
  end.

(** [fmt.Sprintf("ID %d のTodoが見つかりません", input.ID)], the text the
    handlers compare an error with; [input.ID] is an [int]. *)
Definition not_found_text (id : Z) : string :=
  "ID " ++ fmt.d_int id ++ " のTodoが見つかりません".

End texts.

(** The methods of [HumaTodoHandler]. *)
Module HumaTodoHandler.

(** [func (h *HumaTodoHandler) GetAllTodos] *)
Definition GetAllTodos (statement_text : string) (input : TodoQueryRequest)
    (db : gorm.DB)
    : reply TodoListResponse :=
  let listing :=
    if negb (String.eqb (query_Priority input) EmptyString) then
      service.GetTodosByPriority (query_Priority input) db
    else if negb (String.eqb (query_Completed input) EmptyString) then
      if String.eqb (query_Completed input) "true" then
        service.GetCompletedTodos db
      else if String.eqb (query_Completed input) "false" then
        service.GetPendingTodos db
      else service.GetAllTodos db
    else service.GetAllTodos db in
  match listing with
  | service.Err err =>
    Failure (Error500InternalServerError (Error_text statement_text err))
  | service.Ok todos =>
    let responses := map ToResponse todos in
    Response (mkList responses "Todoリストを取得しました"
                     (Z.of_nat (length responses)))
  end.

(** [func (h *HumaTodoHandler) GetTodoByID] *)
Definition GetTodoByID (statement_text : string) (input : TodoIDRequest)
    (db : gorm.DB)
    : reply TodoResponse :=
  match service.GetTodoByID (uint_of_int (path_ID input)) db with
  | service.Err err =>
    if String.eqb (Error_text statement_text err) (not_found_text (path_ID input))
    then Failure (Error404NotFound (Error_text statement_text err))
    else Failure (Error500InternalServerError
                    (Error_text statement_text err))
  | service.Ok todo => Response (mkOne (ToResponse todo) "Todoを取得しました")
  end.

(** [func (h *HumaTodoHandler) CreateTodo]; the service gets a pointer to
    [input.Body], so the input as it is left is part of the outcome. *)
Definition CreateTodo (statement_text : string) (input : TodoCreateRequest)
    (db : gorm.DB)
    : TodoCreateRequest * gorm.DB * reply TodoResponse :=
  let '(body, db', res) := service.CreateTodo (create_Body input) db in
  match res with
  | service.Err err =>
    (mkCreate body, db',
     Failure (Error400BadRequest (Error_text statement_text err)))
  | service.Ok todo =>
    (mkCreate body, db',
     Response (mkOne (ToResponse todo) "Todoを作成しました"))
  end.

(** [func (h *HumaTodoHandler) UpdateTodo] *)
Definition UpdateTodo (statement_text : string) (input : TodoUpdateRequest)
    (db : gorm.DB)
    : gorm.DB * reply TodoResponse :=
  let '(db', res) :=
    service.UpdateTodo (uint_of_int (update_ID input)) (update_Body input) db in
  match res with
  | service.Err err =>
    if String.eqb (Error_text statement_text err) (not_found_text (update_ID input))
    then (db', Failure (Error404NotFound (Error_text statement_text err)))
    else (db', Failure (Error400BadRequest (Error_text statement_text err)))
  | service.Ok todo =>
    (db', Response (mkOne (ToResponse todo) "Todoを更新しました"))
  end.

(** [func (h *HumaTodoHandler) DeleteTodo] *)
Definition DeleteTodo (statement_text : string) (input : TodoIDRequest)
    (db : gorm.DB)
    : gorm.DB * reply DeleteResponse :=
  let '(db', res) := service.DeleteTodo (uint_of_int (path_ID input)) db in
  match res with
  | service.Err err =>
    if String.eqb (Error_text statement_text err) (not_found_text (path_ID input))
    then (db', Failure (Error404NotFound (Error_text statement_text err)))
    else (db', Failure (Error500InternalServerError
                          (Error_text statement_text err)))
  | service.Ok _ =>
    (db', Response (mkDeleted ("ID " ++ fmt.d_int (path_ID input)
                               ++ " のTodoを削除しました")))
  end.

End HumaTodoHandler.

(** The methods of [TodoHandler], the binding for the gorilla/mux router. *)
Module TodoHandler.

(** What a handler passes as [Data interface{}]. *)
Inductive data :=
| NoData
| OneTodo (t : model.TodoResponse.t)
| ManyTodos (l : list model.TodoResponse.t).

(** [type ErrorResponse struct] and [type SuccessResponse struct], as
    handed to the JSON encoder. *)
Inductive body :=
| ErrorResponse (Error Message : string) (Code : N)
| SuccessResponse (Data : data) (Message : string) (Count : option Z).

(** The calls a handler makes on its [http.ResponseWriter], in order:
    [w.Header().Set], [w.WriteHeader], [json.NewEncoder(w).Encode]. *)
Inductive call :=
| Header_Set (key value : string)
| WriteHeader (code : N)
| Encode (b : body).

(** What the handlers read of an [*http.Request]: the URL query, the
    router's path variables, and the body as [json.Decode] fills the
    request struct from it, [None] when decoding fails. *)
Record Request (B : Type) := mkRequest {
  Query : gmap string (list string);
  Vars : gmap string string;
  Body : option B
}.
Arguments mkRequest {B} _ _ _.
Arguments Query {B} _.
Arguments Vars {B} _.
Arguments Body {B} _.

(** [url.Values.Get]: the first value of the key, or the empty string. *)
Definition Query_Get (key : string) (q : gmap string (list string)) : string :=
  match q !! key with
  | Some (v :: _) => v
  | _ => EmptyString
  end.

(** [func (h *TodoHandler) sendErrorResponse] *)
Definition sendErrorResponse (message : string) (code : N) : list call :=
  [Header_Set "Content-Type" "application/json";
   WriteHeader code;
   Encode (ErrorResponse "API Error" message code)].

(** [func (h *TodoHandler) sendSuccessResponse] *)
Definition sendSuccessResponse (d : data) (message : string) (count : option Z)
    : list call :=
  [Header_Set "Content-Type" "application/json";
   WriteHeader 200;
   Encode (SuccessResponse d message count)].

(** [net/http] sends status and headers at the first [WriteHeader], or at
    the first write of the body with status 200 when there was none; a
    later [WriteHeader] and later changes of the header map have no
    effect. The status that goes out: *)
Fixpoint status_sent (w : list call) : option N :=
  match w with
  | [] => None
  | WriteHeader code :: _ => Some code
  | Encode _ :: _ => Some 200
  | Header_Set _ _ :: w' => status_sent w'
  end.

(** ... and what the handler has put into the header map by then,
    starting from [h]; an entry made later is not sent. *)
Fixpoint headers_sent (w : list call) (h : gmap string string)
    : gmap string string :=
  match w with
  | Header_Set key value :: w' => headers_sent w' (<[key := value]> h)
  | _ => h
  end.

(** The end of [GetAllTodos], from [if err != nil] on. *)
Definition send_listing (statement_text : string)
    (listing : service.result (list Todo.t)) : list call :=
  match listing with
  | service.Err err => sendErrorResponse (Error_text statement_text err) 500
  | service.Ok todos =>
    let responses := map ToResponse todos in
    sendSuccessResponse (ManyTodos responses) "Todoリストを取得しました"
                        (Some (Z.of_nat (length responses)))
  end.

(** [func (h *TodoHandler) GetAllTodos] *)
Definition GetAllTodos {B} (statement_text : string) (r : Request B)
    (db : gorm.DB) : list call :=
  let priority := Query_Get "priority" (Query r) in
  if negb (String.eqb priority EmptyString) then
    send_listing statement_text (service.GetTodosByPriority priority db)
  else
    let completed := Query_Get "completed" (Query r) in
    if negb (String.eqb completed EmptyString) then
      if String.eqb completed "true" then
        send_listing statement_text (service.GetCompletedTodos db)
      else if String.eqb completed "false" then
        send_listing statement_text (service.GetPendingTodos db)
      else
        sendErrorResponse
          "completedパラメータはtrueまたはfalseである必要があります" 400
    else send_listing statement_text (service.GetAllTodos db).

(** [func (h *TodoHandler) GetTodoByID] *)
Definition GetTodoByID {B} (statement_text : string) (r : Request B)
    (db : gorm.DB) : list call :=
  match Vars r !! "id" with
  | None => sendErrorResponse "IDが指定されていません" 400
  | Some idStr =>
    match strconv.ParseUint_10_32 idStr with
    | None => sendErrorResponse "無効なID形式です" 400
    | Some id =>
      match service.GetTodoByID id db with
      | service.Err err =>
        if gostrings.Contains (Error_text statement_text err) "見つかりません"
        then sendErrorResponse (Error_text statement_text err) 404
        else sendErrorResponse (Error_text statement_text err) 500
      | service.Ok todo =>
        sendSuccessResponse (OneTodo (ToResponse todo)) "Todoを取得しました" None
      end
    end
  end.

(** [func (h *TodoHandler) CreateTodo]; [TrimSpace] is [strings.TrimSpace]. *)
Definition CreateTodo (TrimSpace : string -> string) (statement_text : string)
    (r : Request model.TodoCreateRequest.t) (db : gorm.DB)
    : gorm.DB * list call :=
  match Body r with
  | None => (db, sendErrorResponse "無効なJSONフォーマットです" 400)
  | Some req =>
    if String.eqb (TrimSpace (model.TodoCreateRequest.Title req)) EmptyString
    then (db, sendErrorResponse "タイトルは必須です" 400)
    else
      let '(_, db', res) := service.CreateTodo req db in
      match res with
      | service.Err err =>
        (db', sendErrorResponse (Error_text statement_text err) 400)
      | service.Ok todo =>
        (db',
         WriteHeader 201 ::
         sendSuccessResponse (OneTodo (ToResponse todo)) "Todoを作成しました" None)
      end
  end.

(** [func (h *TodoHandler) UpdateTodo] *)
Definition UpdateTodo (statement_text : string)
    (r : Request model.TodoUpdateRequest.t) (db : gorm.DB)
    : gorm.DB * list call :=
  match Vars r !! "id" with
  | None => (db, sendErrorResponse "IDが指定されていません" 400)
  | Some idStr =>
    match strconv.ParseUint_10_32 idStr with
    | None => (db, sendErrorResponse "無効なID形式です" 400)
    | Some id =>
      match Body r with
      | None => (db, sendErrorResponse "無効なJSONフォーマットです" 400)
      | Some req =>
        let '(db', res) := service.UpdateTodo id req db in
        match res with
        | service.Err err =>
          if gostrings.Contains (Error_text statement_text err) "見つかりません"
          then (db', sendErrorResponse (Error_text statement_text err) 404)
          else (db', sendErrorResponse (Error_text statement_text err) 400)
        | service.Ok todo =>
          (db', sendSuccessResponse (OneTodo (ToResponse todo))
                                    "Todoを更新しました" None)
        end
      end
    end
  end.

(** [func (h *TodoHandler) DeleteTodo] *)
Definition DeleteTodo {B} (statement_text : string) (r : Request B)
    (db : gorm.DB) : gorm.DB * list call :=
  match Vars r !! "id" with
  | None => (db, sendErrorResponse "IDが指定されていません" 400)
  | Some idStr =>
    match strconv.ParseUint_10_32 idStr with
    | None => (db, sendErrorResponse "無効なID形式です" 400)
    | Some id =>
      let '(db', res) := service.DeleteTodo id db in
      match res with
      | service.Err err =>
        if gostrings.Contains (Error_text statement_text err) "見つかりません"
        then (db', sendErrorResponse (Error_text statement_text err) 404)
        else (db', sendErrorResponse (Error_text statement_text err) 500)
      | service.Ok _ =>
        (db', sendSuccessResponse NoData
                ("ID " ++ fmt.d id ++ " のTodoを削除しました") None)
      end
    end
  end.

End TodoHandler.

End handler.

(** ** Vocabulary of the specification *)

Module spec.
Import model.

(** Membership in the enumeration {low, medium, high, urgent}. *)
Definition valid_priority (p : Priority) : Prop :=
  p = PriorityLow \/ p = PriorityMedium \/ p = PriorityHigh \/ p = PriorityUrgent.

(** The declared severity rank of the enumeration: urgent above high above
    medium above low; anything else ranks lowest. *)
Definition severity_rank (p : Priority) : N :=
  if String.eqb p PriorityUrgent then 4
  else if String.eqb p PriorityHigh then 3
  else if String.eqb p PriorityMedium then 2
  else if String.eqb p PriorityLow then 1
  else 0.

(** "Ordered by severity rank descending, ties broken by most recently
    created first", as a test on two neighbours of a listing. *)
Definition severity_DESC_created_at_DESC (a b : Todo.t) : bool :=
  match N.compare (severity_rank (Todo.Priority a))
                  (severity_rank (Todo.Priority b)) with
  | Gt => true
  | Lt => false
  | Eq => Todo.CreatedAt b <=? Todo.CreatedAt a
  end.

(** A live row of the table carries the identifier [id]. *)
Definition live_entity (id : N) (db : gorm.DB) : Prop :=
  exists r, In r (gorm.todos db) /\ gorm.live r = true /\ Todo.ID r = id.

(** The live rows of the table: those without a deleted-at marker. *)
Definition live_rows (db : gorm.DB) : list Todo.t :=
  filter (fun r => gorm.live r = true) (gorm.todos db).

(** "Newest created first": [a] may stand before [b]. *)
Definition newest_first : relation Todo.t :=
  fun a b => Todo.CreatedAt b <= Todo.CreatedAt a.

(** The store takes the next insert: no write failure, and the identifier
    the sequence hands out is free. *)
Definition accepts_insert (db : gorm.DB) : Prop :=
  gorm.write_fault db = false /\
  existsb (fun r => Todo.ID r =? gorm.next_id db) (gorm.todos db) = false.

(** What a partial update leaves of [old]: a field present in the request
    takes the request's value, an absent one keeps the old value. *)
Definition merged (req : TodoUpdateRequest.t) (old : Todo.t) : Todo.t :=
  Todo.mk (Todo.ID old)
          (default (Todo.Title old) (TodoUpdateRequest.Title req))
          (default (Todo.Description old) (TodoUpdateRequest.Description req))
          (default (Todo.Completed old) (TodoUpdateRequest.Completed req))
          (default (Todo.Priority old) (TodoUpdateRequest.Priority req))
          (match TodoUpdateRequest.DueDate req with
           | Some d => Some d
           | None => Todo.DueDate old
           end)
          (Todo.CreatedAt old) (Todo.UpdatedAt old) (Todo.DeletedAt old).

(** A small table used to run the operations: a pending high-priority row,
    a pending low-priority row created later, a completed row, and a row
    that was soft-deleted at time 7. *)
Definition row_high : Todo.t :=
  Todo.mk 1 "Buy milk" EmptyString false PriorityHigh None 1 1 None.
Definition row_low : Todo.t :=
  Todo.mk 2 "Water plants" EmptyString false PriorityLow None 2 2 None.
Definition row_done : Todo.t :=
  Todo.mk 3 "File taxes" EmptyString true PriorityUrgent (Some 30) 3 5 None.
Definition row_gone : Todo.t :=
  Todo.mk 4 "Old note" EmptyString false PriorityMedium None 4 4 (Some 7).

(** A creation request as a caller sends it, with priority [p]. *)
Definition buy_milk (p : Priority) : TodoCreateRequest.t :=
  TodoCreateRequest.mk "Buy milk" "2 litres" p (Some 42).

Definition sample_db : gorm.DB :=
  gorm.mkDB [row_high; row_low; row_done; row_gone] 5 10 false false.

(** "Most recently updated first": [a] may stand before [b]. *)
Definition most_recently_updated_first : relation Todo.t :=
  fun a b => Todo.UpdatedAt b <= Todo.UpdatedAt a.

(** Where a member of the enumeration falls when the priority column is
    sorted as text, descending: urgent, medium, low, high. *)
Definition column_rank (p : Priority) : N :=
  if String.eqb p PriorityUrgent then 4
  else if String.eqb p PriorityMedium then 3
  else if String.eqb p PriorityLow then 2
  else if String.eqb p PriorityHigh then 1
  else 0.

(** [a] may stand before [b] in a listing by column rank, then newest
    created first. *)
Definition column_order : relation Todo.t :=
  fun a b =>
    column_rank (Todo.Priority b) < column_rank (Todo.Priority a) \/
    (column_rank (Todo.Priority a) = column_rank (Todo.Priority b) /\
     Todo.CreatedAt b <= Todo.CreatedAt a).

(** The identifier column of the table, in row order. *)
Definition ids (db : gorm.DB) : list N := map Todo.ID (gorm.todos db).

(** Identifiers are unique and were all handed out by the sequence. *)
Definition well_formed (db : gorm.DB) : Prop :=
  NoDup (ids db) /\
  Forall (fun r => Todo.ID r < gorm.next_id db) (gorm.todos db).

(** Every stored priority is a member of the enumeration. *)
Definition priorities_valid (db : gorm.DB) : Prop :=
  Forall (fun r => IsValid (Todo.Priority r) = true) (gorm.todos db).

(** A byte that is one of the digits 0 to 9, and a text made of such. *)
Definition is_digit (c : ascii) : bool :=
  (48 <=? N_of_ascii c) && (N_of_ascii c <=? 57).

Fixpoint all_digits (s : string) : bool :=
  match s with
  | EmptyString => true
  | String c s' => is_digit c && all_digits s'
  end.

(** A reply of the router binding goes out with status [code] and declares
    itself JSON. *)
Definition json_reply (w : list handler.TodoHandler.call) (code : N) : Prop :=
  handler.TodoHandler.status_sent w = Some code /\
  handler.TodoHandler.headers_sent w ∅ !! "Content-Type"
  = Some "application/json".

End spec.

(** ** Properties *)

Import model service spec.

(** *** The enumeration *)

Lemma IsValid_true_iff (p : Priority) : IsValid p = true <-> valid_priority p.
Proof.
  unfold IsValid, valid_priority. split.
  - destruct (String.eqb_spec p PriorityLow); [tauto|].
    destruct (String.eqb_spec p PriorityMedium); [tauto|].
    destruct (String.eqb_spec p PriorityHigh); [tauto|].
    destruct (String.eqb_spec p PriorityUrgent); [tauto|].
    discriminate.
  - intros [-> | [-> | [-> | ->]]]; reflexivity.
Qed.

Lemma IsValid_false_iff (p : Priority) : IsValid p = false <-> ~ valid_priority p.
Proof.
  rewrite <- IsValid_true_iff. destruct (IsValid p); split; intros; congruence.
Qed.

Lemma valid_priority_nonempty (p : Priority) : valid_priority p -> p <> EmptyString.
Proof. intros [-> | [-> | [-> | ->]]]; discriminate. Qed.

(** *** Fetching by identifier *)

Lemma GetTodoByID_unfold (id : N) (db : gorm.DB) :
  GetTodoByID id db =
  if gorm.read_fault db then Err (StoreError Fetch gorm.ErrStatement)
  else match List.find (gorm.live_with_id id) (gorm.todos db) with
       | Some r => Ok r
       | None => Err (NotFoundError id)
       end.
Proof.
  unfold GetTodoByID, gorm.First.
  destruct (gorm.read_fault db); [reflexivity|].
  destruct (List.find _ _); reflexivity.
Qed.

Lemma live_with_id_true (id : N) (r : Todo.t) :
  gorm.live_with_id id r = true <-> gorm.live r = true /\ Todo.ID r = id.
Proof.
  unfold gorm.live_with_id. rewrite andb_true_iff, N.eqb_eq. tauto.
Qed.

Lemma GetTodoByID_Ok (id : N) (db : gorm.DB) (r : Todo.t) :
  GetTodoByID id db = Ok r ->
  gorm.read_fault db = false /\ In r (gorm.todos db) /\
  gorm.live r = true /\ Todo.ID r = id.
Proof.
  rewrite GetTodoByID_unfold.
  destruct (gorm.read_fault db); [discriminate|].
  destruct (List.find _ _) as [r'|] eqn:Hfind; [|discriminate].
  intros [= ->]. apply find_some in Hfind as [Hin Hlive].
  apply live_with_id_true in Hlive. tauto.
Qed.

Lemma GetTodoByID_live (id : N) (db : gorm.DB) :
  gorm.read_fault db = false -> live_entity id db ->
  exists r, GetTodoByID id db = Ok r.
Proof.
  intros Hread (r & Hin & Hlive & Hid).
  rewrite GetTodoByID_unfold, Hread.
  destruct (List.find _ _) as [r'|] eqn:Hfind; [eauto|].
  exfalso. apply (find_none _ _ Hfind) in Hin.
  assert (gorm.live_with_id id r = true) by (apply live_with_id_true; tauto).
  congruence.
Qed.

Lemma GetTodoByID_missing (id : N) (db : gorm.DB) :
  gorm.read_fault db = false -> ~ live_entity id db ->
  GetTodoByID id db = Err (NotFoundError id).
Proof.
  intros Hread Hnone. rewrite GetTodoByID_unfold, Hread.
  destruct (List.find _ _) as [r|] eqn:Hfind; [|reflexivity].
  exfalso. apply Hnone. apply find_some in Hfind as [Hin Hlive].
  apply live_with_id_true in Hlive. exists r. tauto.
Qed.

(** *** Creation *)

Lemma CreateTodo_rejects (req : TodoCreateRequest.t) (db : gorm.DB) :
  TodoCreateRequest.Priority req <> EmptyString ->
  IsValid (TodoCreateRequest.Priority req) = false ->
  CreateTodo req db = (req, db, Err (ValidationError (TodoCreateRequest.Priority req))).
Proof.
  intros Hne Hbad. unfold CreateTodo. rewrite Hbad.
  destruct (String.eqb_spec (TodoCreateRequest.Priority req) EmptyString);
    [contradiction|].
  reflexivity.
Qed.

(** The request as [CreateTodo] leaves it once validation has passed. *)
Lemma CreateTodo_passes (req : TodoCreateRequest.t) (db : gorm.DB) :
  TodoCreateRequest.Priority req = EmptyString \/
  IsValid (TodoCreateRequest.Priority req) = true ->
  exists req' db' r,
    CreateTodo req db = (req', db', r) /\
    req' = (if String.eqb (TodoCreateRequest.Priority req) EmptyString
            then TodoCreateRequest.with_Priority PriorityMedium req else req) /\
    (forall q, r <> Err (ValidationError q)) /\
    (gorm.write_fault db = true -> db' = db) /\
    (accepts_insert db ->
       let todo :=
         Todo.mk (gorm.next_id db) (TodoCreateRequest.Title req')
                 (TodoCreateRequest.Description req') false
                 (TodoCreateRequest.Priority req') (TodoCreateRequest.DueDate req')
                 (gorm.now db) (gorm.now db) None in
       r = Ok todo /\ gorm.todos db' = (gorm.todos db ++ [todo])%list).
Proof.
  intros Hpass. unfold CreateTodo.
  assert (negb (String.eqb (TodoCreateRequest.Priority req) EmptyString)
          && negb (IsValid (TodoCreateRequest.Priority req)) = false) as ->.
  { destruct Hpass as [-> | ->]; [reflexivity|]. apply andb_false_r. }
  set (req' := if String.eqb (TodoCreateRequest.Priority req) EmptyString
               then _ else req).
  unfold gorm.Create, accepts_insert.
  destruct (gorm.write_fault db) eqn:Hw.
  - exists req', db, (Err (StoreError Insert gorm.ErrStatement)); cbn.
    split; [reflexivity|]. split; [reflexivity|]. split; [discriminate|].
    split; [reflexivity|]. intros [? _]; discriminate.
  - destruct (existsb _ _) eqn:Hdup; cbn.
    + eexists req', _, (Err (StoreError Insert gorm.ErrStatement)).
      split; [reflexivity|]. split; [reflexivity|]. split; [discriminate|].
      split; [discriminate|]. intros [_ ?]; discriminate.
    + eexists req', _, _.
      split; [reflexivity|]. split; [reflexivity|]. split; [discriminate|].
      split; [discriminate|]. intros _. split; reflexivity.
Qed.

Lemma CreateTodo_Ok_fields (req req' : TodoCreateRequest.t) (db db' : gorm.DB)
    (todo : Todo.t) :
  CreateTodo req db = (req', db', Ok todo) ->
  Todo.Completed todo = false /\
  Todo.Priority todo = TodoCreateRequest.Priority req' /\
  IsValid (Todo.Priority todo) = true /\
  In todo (gorm.todos db').
Proof.
  unfold CreateTodo.
  destruct (negb (String.eqb (TodoCreateRequest.Priority req) EmptyString)
            && negb (IsValid (TodoCreateRequest.Priority req))) eqn:Hchk;
    [discriminate|].
  unfold gorm.Create.
  destruct (gorm.write_fault db); [discriminate|].
  destruct (existsb _ _); [discriminate|]. cbn.
  intros [= <- <- <-]. cbn. repeat split.
  - destruct (String.eqb_spec (TodoCreateRequest.Priority req) EmptyString) as [He|Hne];
      [reflexivity|].
    cbn in Hchk. destruct (IsValid (TodoCreateRequest.Priority req)); [reflexivity|].
    destruct (String.eqb_spec (TodoCreateRequest.Priority req) EmptyString);
      [contradiction|].
    discriminate.
  - apply in_or_app. right. left. reflexivity.
Qed.

(** *** Partial update *)

Lemma apply_update_rejects (req : TodoUpdateRequest.t) (old : Todo.t) (p : Priority) :
  TodoUpdateRequest.Priority req = Some p -> IsValid p = false ->
  apply_update req old = Err (ValidationError p).
Proof. intros Hp Hbad. unfold apply_update. rewrite Hp, Hbad. reflexivity. Qed.

Lemma apply_update_merges (req : TodoUpdateRequest.t) (old : Todo.t) :
  (forall p, TodoUpdateRequest.Priority req = Some p -> IsValid p = true) ->
  apply_update req old = Ok (merged req old).
Proof.
  intros Hp. unfold apply_update, merged.
  destruct req as [ti de co pr du]; cbn in *.
  destruct pr as [p|]; [rewrite (Hp p eq_refl)|]; cbn;
    destruct ti, de, co, du, old; reflexivity.
Qed.

Lemma apply_update_cases (req : TodoUpdateRequest.t) (old : Todo.t) :
  match TodoUpdateRequest.Priority req with
  | Some p =>
    if IsValid p then apply_update req old = Ok (merged req old)
    else apply_update req old = Err (ValidationError p)
  | None => apply_update req old = Ok (merged req old)
  end.
Proof.
  destruct (TodoUpdateRequest.Priority req) as [p|] eqn:Hp.
  - destruct (IsValid p) eqn:Hv.
    + apply apply_update_merges. intros q Hq. congruence.
    + now apply apply_update_rejects.
  - apply apply_update_merges. intros q Hq. congruence.
Qed.

Lemma find_map_hit (id : N) (row : Todo.t) (l : list Todo.t) (r : Todo.t) :
  gorm.live_with_id id row = true ->
  List.find (gorm.live_with_id id) l = Some r ->
  List.find (gorm.live_with_id id)
            (map (fun x => if gorm.live_with_id id x then row else x) l) = Some row.
Proof.
  intros Hrow. induction l as [|x l IH]; cbn; [discriminate|].
  destruct (gorm.live_with_id id x) eqn:Hx.
  - intros _. now rewrite Hrow.
  - rewrite Hx. exact IH.
Qed.

(** [UpdateTodo] on a row that can be fetched, case by case. *)
Lemma UpdateTodo_fetched (id : N) (req : TodoUpdateRequest.t) (db : gorm.DB)
    (old : Todo.t) :
  GetTodoByID id db = Ok old ->
  UpdateTodo id req db =
  match apply_update req old with
  | Err e => (db, Err e)
  | Ok todo =>
    if gorm.write_fault db then (db, Err (StoreError Update gorm.ErrStatement))
    else
      (gorm.with_todos
         (map (fun r => if gorm.live_with_id id r
                        then Todo.with_UpdatedAt (gorm.now db) todo else r)
              (gorm.todos db)) db,
       Ok (Todo.with_UpdatedAt (gorm.now db) todo))
  end.
Proof.
  intros Hget. unfold UpdateTodo. rewrite Hget.
  destruct (apply_update req old) as [todo|e] eqn:Happ; [|reflexivity].
  assert (Todo.ID todo = id) as Hid.
  { apply GetTodoByID_Ok in Hget as (_ & _ & _ & Hid).
    pose proof (apply_update_cases req old) as Hc.
    destruct (TodoUpdateRequest.Priority req) as [p|];
      [destruct (IsValid p)|]; rewrite Hc in Happ; try discriminate;
      injection Happ as <-; exact Hid. }
  unfold gorm.Save. destruct (gorm.write_fault db); [reflexivity|].
  cbn. rewrite Hid. reflexivity.
Qed.

Lemma UpdateTodo_no_validation_error (id : N) (req : TodoUpdateRequest.t)
    (db : gorm.DB) :
  (forall p, TodoUpdateRequest.Priority req = Some p -> IsValid p = true) ->
  forall q, snd (UpdateTodo id req db) <> Err (ValidationError q).
Proof.
  intros Hp q.
  destruct (GetTodoByID id db) as [old|e] eqn:Hget.
  - rewrite (UpdateTodo_fetched _ _ _ _ Hget), (apply_update_merges _ _ Hp).
    destruct (gorm.write_fault db); discriminate.
  - unfold UpdateTodo. rewrite Hget. cbn.
    rewrite GetTodoByID_unfold in Hget.
    destruct (gorm.read_fault db); [congruence|].
    destruct (List.find _ _); congruence.
Qed.

Lemma UpdateTodo_rejects_keeps_store (id : N) (req : TodoUpdateRequest.t)
    (db : gorm.DB) (p : Priority) :
  TodoUpdateRequest.Priority req = Some p -> IsValid p = false ->
  fst (UpdateTodo id req db) = db.
Proof.
  intros Hp Hbad.
  destruct (GetTodoByID id db) as [old|e] eqn:Hget.
  - rewrite (UpdateTodo_fetched _ _ _ _ Hget), (apply_update_rejects _ _ _ Hp Hbad).
    reflexivity.
  - unfold UpdateTodo. rewrite Hget. reflexivity.
Qed.

(** *** Claims on priority validation and creation *)

(** C1. A priority that is a member of {low, medium, high, urgent} is
    accepted by [CreateTodo] and by [UpdateTodo]: neither reports a
    validation error, and each returns the entity carrying that priority
    whenever the store takes the write (for an update: on a live entity).
    Any other non-empty priority makes [CreateTodo] return the validation
    error naming it with request and store untouched; [UpdateTodo] leaves
    the store untouched and, on a live entity, returns the validation error
    naming it. *)
Theorem C1_priority_validation (p : Priority) :
  (valid_priority p ->
   (forall req db, TodoCreateRequest.Priority req = p ->
      (forall q, snd (CreateTodo req db) <> Err (ValidationError q)) /\
      (accepts_insert db ->
         exists todo, snd (CreateTodo req db) = Ok todo /\ Todo.Priority todo = p)) /\
   (forall id req db, TodoUpdateRequest.Priority req = Some p ->
      (forall q, snd (UpdateTodo id req db) <> Err (ValidationError q)) /\
      (live_entity id db -> gorm.read_fault db = false ->
       gorm.write_fault db = false ->
         exists todo, snd (UpdateTodo id req db) = Ok todo /\ Todo.Priority todo = p)))
  /\
  (~ valid_priority p -> p <> EmptyString ->
   (forall req db, TodoCreateRequest.Priority req = p ->
      CreateTodo req db = (req, db, Err (ValidationError p))) /\
   (forall id req db, TodoUpdateRequest.Priority req = Some p ->
      fst (UpdateTodo id req db) = db /\
      (live_entity id db -> gorm.read_fault db = false ->
         UpdateTodo id req db = (db, Err (ValidationError p))))).
Proof.
  split.
  - intros Hv. pose proof (valid_priority_nonempty p Hv) as Hne.
    apply IsValid_true_iff in Hv. split.
    + intros req db <-.
      destruct (CreateTodo_passes req db (or_intror Hv))
        as (req' & db' & r & Heq & Hreq & Hnv & _ & Hacc).
      rewrite Heq; cbn. split; [exact Hnv|].
      intros Ha. destruct (Hacc Ha) as [-> _]. eexists; split; [reflexivity|].
      cbn. subst req'.
      destruct (String.eqb_spec (TodoCreateRequest.Priority req) EmptyString);
        [contradiction|].
      reflexivity.
    + intros id req db Hp. split.
      * apply UpdateTodo_no_validation_error. intros q Hq. congruence.
      * intros Hlive Hread Hwrite.
        destruct (GetTodoByID_live id db Hread Hlive) as [old Hget].
        rewrite (UpdateTodo_fetched _ _ _ _ Hget), apply_update_merges, Hwrite
          by (intros q Hq; congruence).
        eexists; split; [reflexivity|]. cbn. now rewrite Hp.
  - intros Hbad Hne. apply IsValid_false_iff in Hbad. split.
    + intros req db <-. now apply CreateTodo_rejects.
    + intros id req db Hp. split.
      * now apply (UpdateTodo_rejects_keeps_store id req db p).
      * intros Hlive Hread.
        destruct (GetTodoByID_live id db Hread Hlive) as [old Hget].
        now rewrite (UpdateTodo_fetched _ _ _ _ Hget),
          (apply_update_rejects _ _ _ Hp Hbad).
Qed.

(** The sample table accepts inserts and holds a live row 1. *)
Lemma sample_db_accepts_insert : accepts_insert sample_db.
Proof. split; reflexivity. Defined.

Lemma sample_db_live_1 : live_entity 1 sample_db.
Proof.
  exists row_high. split; [left; reflexivity|]. split; reflexivity.
Defined.

Lemma C1_priority_validation_witness :
  (exists todo,
     snd (CreateTodo (buy_milk "high") sample_db)
       = Ok todo /\ Todo.Priority todo = "high") /\
  (exists todo,
     snd (UpdateTodo 1 (TodoUpdateRequest.mk None None None (Some "urgent") None)
                     sample_db) = Ok todo /\ Todo.Priority todo = "urgent") /\
  CreateTodo (buy_milk "invalid") sample_db
    = (buy_milk "invalid", sample_db,
       Err (ValidationError "invalid")) /\
  UpdateTodo 1 (TodoUpdateRequest.mk None None (Some true) (Some "invalid") None)
             sample_db = (sample_db, Err (ValidationError "invalid")).
Proof.
  assert (valid_priority "high") as Hhigh by (right; right; left; reflexivity).
  assert (valid_priority "urgent") as Hurgent by (right; right; right; reflexivity).
  assert (~ valid_priority "invalid") as Hbad
    by (intros [H | [H | [H | H]]]; discriminate H).
  assert ("invalid" <> EmptyString) as Hne by discriminate.
  split.
  { apply (proj1 (C1_priority_validation "high") Hhigh);
      [reflexivity | exact sample_db_accepts_insert]. }
  split.
  { apply (proj2 (proj1 (C1_priority_validation "urgent") Hurgent) 1);
      [reflexivity | exact sample_db_live_1 | reflexivity | reflexivity]. }
  split.
  { apply (proj1 (proj2 (C1_priority_validation "invalid") Hbad Hne)). reflexivity. }
  { apply (proj2 (proj2 (C1_priority_validation "invalid") Hbad Hne) 1);
      [reflexivity | exact sample_db_live_1 | reflexivity]. }
Defined.

(** C2. [CreateTodo] on a request whose priority is the empty string, when
    the store takes the insert, persists and returns an entity with priority
    "medium"; and every entity [CreateTodo] returns has [Completed = false]. *)
Theorem C2_create_defaults (req : TodoCreateRequest.t) (db : gorm.DB) :
  (TodoCreateRequest.Priority req = EmptyString -> accepts_insert db ->
     exists req' db' todo,
       CreateTodo req db = (req', db', Ok todo) /\
       Todo.Priority todo = "medium" /\
       Todo.Completed todo = false /\
       gorm.todos db' = (gorm.todos db ++ [todo])%list) /\
  (forall req' db' todo,
     CreateTodo req db = (req', db', Ok todo) -> Todo.Completed todo = false).
Proof.
  split.
  - intros Hempty Ha.
    destruct (CreateTodo_passes req db (or_introl Hempty))
      as (req' & db' & r & Heq & Hreq & _ & _ & Hacc).
    destruct (Hacc Ha) as [Hr Hrows].
    exists req', db'. eexists. rewrite Heq, Hr. split; [reflexivity|].
    split; [|split; [reflexivity | exact Hrows]].
    cbn. subst req'. rewrite Hempty. reflexivity.
  - intros req' db' todo Heq. now apply CreateTodo_Ok_fields in Heq.
Qed.

Lemma C2_create_defaults_witness :
  exists req' db' todo,
    CreateTodo (buy_milk EmptyString) sample_db
      = (req', db', Ok todo) /\
    Todo.Priority todo = "medium" /\
    Todo.Completed todo = false /\
    gorm.todos db' = (gorm.todos sample_db ++ [todo])%list.
Proof.
  apply (proj1 (C2_create_defaults
                  (buy_milk EmptyString)
                  sample_db));
    [reflexivity | exact sample_db_accepts_insert].
Defined.

(** C10. [CreateTodo] writes to its caller's request: an empty priority is
    overwritten with "medium" (whether or not the insert then succeeds), so
    after a successful call the request carries the priority of the created
    entity, never the empty string; title, description and due date are
    never changed, and a request with a non-empty priority is left as it
    was. *)
Theorem C10_create_mutates_request (req : TodoCreateRequest.t) (db : gorm.DB) :
  let req' := fst (fst (CreateTodo req db)) in
  TodoCreateRequest.Title req' = TodoCreateRequest.Title req /\
  TodoCreateRequest.Description req' = TodoCreateRequest.Description req /\
  TodoCreateRequest.DueDate req' = TodoCreateRequest.DueDate req /\
  (TodoCreateRequest.Priority req = EmptyString ->
     TodoCreateRequest.Priority req' = "medium") /\
  (TodoCreateRequest.Priority req <> EmptyString -> req' = req) /\
  (forall todo, snd (CreateTodo req db) = Ok todo ->
     TodoCreateRequest.Priority req' = Todo.Priority todo /\
     TodoCreateRequest.Priority req' <> EmptyString).
Proof.
  cbn zeta.
  destruct (String.eqb_spec (TodoCreateRequest.Priority req) EmptyString) as [He|Hne].
  - destruct (CreateTodo_passes req db (or_introl He))
      as (req' & db' & r & Heq & Hreq & _).
    rewrite He in Hreq; cbn in Hreq. subst req'. rewrite Heq; cbn.
    do 3 (split; [reflexivity|]). split; [reflexivity|].
    split; [contradiction|].
    intros todo ->. apply CreateTodo_Ok_fields in Heq as (_ & Hp & _).
    split; [symmetry; exact Hp | discriminate].
  - destruct (IsValid (TodoCreateRequest.Priority req)) eqn:Hv.
    + destruct (CreateTodo_passes req db (or_intror Hv))
        as (req' & db' & r & Heq & Hreq & _).
      destruct (String.eqb_spec (TodoCreateRequest.Priority req) EmptyString);
        [contradiction|].
      subst req'. rewrite Heq; cbn.
      do 3 (split; [reflexivity|]). split; [contradiction|].
      split; [reflexivity|].
      intros todo ->. apply CreateTodo_Ok_fields in Heq as (_ & Hp & _).
      split; [symmetry; exact Hp | exact Hne].
    + rewrite (CreateTodo_rejects req db Hne Hv); cbn.
      do 3 (split; [reflexivity|]). split; [contradiction|].
      split; [reflexivity|]. discriminate.
Qed.

Lemma C10_create_mutates_request_witness :
  TodoCreateRequest.Priority
    (fst (fst (CreateTodo (buy_milk EmptyString) sample_db)))
    = "medium" /\
  fst (fst (CreateTodo (buy_milk "low") sample_db))
    = buy_milk "low".
Proof.
  split.
  - apply (C10_create_mutates_request
             (buy_milk EmptyString) sample_db).
    reflexivity.
  - apply (C10_create_mutates_request
             (buy_milk "low") sample_db).
    discriminate.
Defined.

(** *** Claims on fetching, updating and deleting *)

Lemma live_None (r : Todo.t) : gorm.live r = true <-> Todo.DeletedAt r = None.
Proof. unfold gorm.live. destruct (Todo.DeletedAt r); split; congruence. Qed.

Lemma GetTodoByID_at_time (id : N) (t : Time) (db : gorm.DB) :
  GetTodoByID id (gorm.at_time t db) = GetTodoByID id db.
Proof. now rewrite !GetTodoByID_unfold. Qed.

(** C6. With the store answering reads, [GetTodoByID] returns a live row
    carrying the identifier when there is one and the not-found error when
    there is none; what it returns is never a soft-deleted row; and on an
    identifier without a live row [UpdateTodo] and [DeleteTodo] stop at their
    initial fetch with the same not-found error, the store untouched. *)
Theorem C6_fetch_live_only (id : N) (db : gorm.DB) :
  gorm.read_fault db = false ->
  (live_entity id db ->
     exists r, GetTodoByID id db = Ok r /\ In r (gorm.todos db) /\
               Todo.DeletedAt r = None /\ Todo.ID r = id) /\
  (~ live_entity id db ->
     GetTodoByID id db = Err (NotFoundError id) /\
     (forall req, UpdateTodo id req db = (db, Err (NotFoundError id))) /\
     DeleteTodo id db = (db, Err (NotFoundError id))) /\
  (forall r, GetTodoByID id db = Ok r -> Todo.DeletedAt r = None).
Proof.
  intros Hread. split; [|split].
  - intros Hlive. destruct (GetTodoByID_live id db Hread Hlive) as [r Hget].
    exists r. split; [exact Hget|].
    apply GetTodoByID_Ok in Hget as (_ & Hin & Hl & Hid).
    apply live_None in Hl. tauto.
  - intros Hnone. pose proof (GetTodoByID_missing id db Hread Hnone) as Hget.
    split; [exact Hget|]. unfold UpdateTodo, DeleteTodo. rewrite Hget.
    split; reflexivity.
  - intros r Hget. apply GetTodoByID_Ok in Hget as (_ & _ & Hl & _).
    now apply live_None.
Qed.

Lemma sample_db_no_live_4 : ~ live_entity 4 sample_db.
Proof.
  intros (r & Hin & Hl & Hid). cbn in Hin.
  destruct Hin as [<- | [<- | [<- | [<- | []]]]]; discriminate.
Defined.

Lemma C6_fetch_live_only_witness :
  (exists r, GetTodoByID 1 sample_db = Ok r /\ In r (gorm.todos sample_db) /\
             Todo.DeletedAt r = None /\ Todo.ID r = 1) /\
  GetTodoByID 4 sample_db = Err (NotFoundError 4) /\
  DeleteTodo 4 sample_db = (sample_db, Err (NotFoundError 4)).
Proof.
  split.
  - apply (proj1 (C6_fetch_live_only 1 sample_db eq_refl)). exact sample_db_live_1.
  - destruct (proj1 (proj2 (C6_fetch_live_only 4 sample_db eq_refl))
                sample_db_no_live_4) as (Hget & _ & Hdel).
    split; [exact Hget | exact Hdel].
Defined.

(** C3. On a live entity [old], an update whose priority (if present) is not
    in the enumeration is refused with the validation error and the store
    untouched; any other update, when the store takes the write, returns and
    persists an entity in which title, description, completed flag, priority
    and due date carry the request's value where the request has one and
    [old]'s value where it has none, with identifier, creation time and
    soft-delete marker as before. *)
Theorem C3_partial_update (id : N) (req : TodoUpdateRequest.t) (db : gorm.DB)
    (old : Todo.t) :
  GetTodoByID id db = Ok old ->
  (forall p, TodoUpdateRequest.Priority req = Some p -> IsValid p = false ->
     UpdateTodo id req db = (db, Err (ValidationError p))) /\
  ((forall p, TodoUpdateRequest.Priority req = Some p -> IsValid p = true) ->
   gorm.write_fault db = false ->
   exists db' new,
     UpdateTodo id req db = (db', Ok new) /\
     Todo.Title new =
       match TodoUpdateRequest.Title req with
       | Some v => v | None => Todo.Title old end /\
     Todo.Description new =
       match TodoUpdateRequest.Description req with
       | Some v => v | None => Todo.Description old end /\
     Todo.Completed new =
       match TodoUpdateRequest.Completed req with
       | Some v => v | None => Todo.Completed old end /\
     Todo.Priority new =
       match TodoUpdateRequest.Priority req with
       | Some v => v | None => Todo.Priority old end /\
     Todo.DueDate new =
       match TodoUpdateRequest.DueDate req with
       | Some v => Some v | None => Todo.DueDate old end /\
     Todo.ID new = Todo.ID old /\
     Todo.CreatedAt new = Todo.CreatedAt old /\
     Todo.DeletedAt new = Todo.DeletedAt old /\
     GetTodoByID id db' = Ok new).
Proof.
  intros Hget. split.
  - intros p Hp Hbad.
    now rewrite (UpdateTodo_fetched _ _ _ _ Hget), (apply_update_rejects _ _ _ Hp Hbad).
  - intros Hp Hwrite.
    rewrite (UpdateTodo_fetched _ _ _ _ Hget), (apply_update_merges _ _ Hp), Hwrite.
    eexists _, _. split; [reflexivity|]. cbn.
    do 8 (split; [reflexivity|]).
    pose proof Hget as Hget'. apply GetTodoByID_Ok in Hget' as (Hread & _ & Hl & Hid).
    rewrite GetTodoByID_unfold in *. cbn. rewrite Hread in *.
    destruct (List.find _ (gorm.todos db)) as [r|] eqn:Hfind; [|discriminate].
    erewrite find_map_hit; [reflexivity| |exact Hfind].
    apply live_with_id_true. split; [|exact Hid].
    apply live_None. cbn. now apply live_None.
Qed.

Lemma C3_partial_update_witness :
  UpdateTodo 1 (TodoUpdateRequest.mk None None None (Some "invalid") None) sample_db
    = (sample_db, Err (ValidationError "invalid")) /\
  exists db' new,
    UpdateTodo 1 (TodoUpdateRequest.mk None None (Some true) None None) sample_db
      = (db', Ok new) /\
    Todo.Completed new = true /\ Todo.Priority new = "high" /\
    Todo.Title new = "Buy milk".
Proof.
  assert (GetTodoByID 1 sample_db = Ok row_high) as Hget by reflexivity.
  split.
  - apply (proj1 (C3_partial_update 1 _ sample_db row_high Hget));
      reflexivity.
  - destruct (proj2 (C3_partial_update 1
                       (TodoUpdateRequest.mk None None (Some true) None None)
                       sample_db row_high Hget))
      as (db' & new & Heq & Hti & _ & Hco & Hpr & _);
      [discriminate | reflexivity |].
    exists db', new. split; [exact Heq|]. split; [exact Hco|].
    split; [exact Hpr | exact Hti].
Defined.

(** *** Soft delete *)

Lemma find_after_soft_delete (id : N) (t : Time) (l : list Todo.t) :
  List.find (gorm.live_with_id id)
    (map (fun r => if gorm.live_with_id id r
                   then Todo.with_DeletedAt (Some t) r else r) l) = None.
Proof.
  induction l as [|x l IH]; cbn; [reflexivity|].
  destruct (gorm.live_with_id id x) eqn:Hx; [cbn | rewrite Hx]; exact IH.
Qed.

Lemma soft_delete_keeps_ids (id : N) (t : Time) (l : list Todo.t) :
  map Todo.ID
    (map (fun r => if gorm.live_with_id id r
                   then Todo.with_DeletedAt (Some t) r else r) l)
  = map Todo.ID l.
Proof.
  induction l as [|x l IH]; cbn; [reflexivity|].
  rewrite IH. now destruct (gorm.live_with_id id x).
Qed.

Lemma soft_delete_marks (id : N) (t : Time) (l : list Todo.t) (r : Todo.t) :
  In r (map (fun r => if gorm.live_with_id id r
                      then Todo.with_DeletedAt (Some t) r else r) l) ->
  Todo.ID r = id -> Todo.DeletedAt r <> None.
Proof.
  intros Hin Hid. apply in_map_iff in Hin as (x & <- & _).
  destruct (gorm.live_with_id id x) eqn:Hx; [discriminate|].
  intros Hnone.
  assert (gorm.live_with_id id x = true); [|congruence].
  apply live_with_id_true. split; [now apply live_None | exact Hid].
Qed.

Lemma hits_nonempty (id : N) (l : list Todo.t) (r : Todo.t) :
  In r l -> gorm.live_with_id id r = true ->
  (N.of_nat (length (filter (fun r => gorm.live_with_id id r = true) l)) =? 0) = false.
Proof.
  intros Hin Hr. apply N.eqb_neq.
  assert (r ∈ filter (fun r => gorm.live_with_id id r = true) l) as Hf.
  { apply list_elem_of_filter. split; [exact Hr | now apply list_elem_of_In]. }
  destruct (filter _ l); [inversion Hf | cbn; lia].
Qed.

(** [DeleteTodo] on a row that can be fetched, with the store taking the
    write: the statement marks the live rows of that identifier. *)
Lemma DeleteTodo_fetched (id : N) (db : gorm.DB) (old : Todo.t) :
  GetTodoByID id db = Ok old -> gorm.write_fault db = false ->
  DeleteTodo id db =
  (gorm.with_todos
     (map (fun r => if gorm.live_with_id id r
                    then Todo.with_DeletedAt (Some (gorm.now db)) r else r)
          (gorm.todos db)) db,
   Ok tt).
Proof.
  intros Hget Hwrite. unfold DeleteTodo, DeleteTodo_statement, gorm.Delete.
  rewrite Hget, Hwrite. cbn.
  apply GetTodoByID_Ok in Hget as (_ & Hin & Hl & Hid).
  rewrite (hits_nonempty id _ old Hin); [reflexivity|].
  apply live_with_id_true. tauto.
Qed.

(** The branch that reports "already deleted" is the one taken when the row
    stopped being live after [DeleteTodo]'s existence check: the statement
    then affects no row. *)
Lemma DeleteTodo_statement_already_deleted (id : N) (db : gorm.DB) :
  gorm.write_fault db = false -> ~ live_entity id db ->
  snd (DeleteTodo_statement id db) = Err (AlreadyDeletedError id).
Proof.
  intros Hwrite Hnone. unfold DeleteTodo_statement, gorm.Delete.
  rewrite Hwrite. cbn.
  assert (filter (fun r => gorm.live_with_id id r = true) (gorm.todos db) = []) as ->;
    [|reflexivity].
  destruct (filter _ _) as [|r l] eqn:Hf; [reflexivity|]. exfalso.
  assert (r ∈ filter (fun r => gorm.live_with_id id r = true) (gorm.todos db)) as Hr
    by (rewrite Hf; left).
  apply list_elem_of_filter in Hr as [Hr Hin]. apply Hnone.
  apply live_with_id_true in Hr. exists r.
  split; [now apply list_elem_of_In | exact Hr].
Qed.

(** C4, as the code has it. For a live entity and a store that answers,
    the first [DeleteTodo] succeeds; the second, at whatever later time,
    stops at the existence check and returns the not-found error, leaving
    the store as it was; no row is removed by either call (the column of
    identifiers is unchanged) and every row of that identifier carries a
    deleted-at marker afterwards. *)
Theorem C4_delete_twice_not_found (id : N) (db : gorm.DB) (t2 : Time) :
  live_entity id db -> gorm.read_fault db = false -> gorm.write_fault db = false ->
  exists db1,
    DeleteTodo id db = (db1, Ok tt) /\
    DeleteTodo id (gorm.at_time t2 db1)
      = (gorm.at_time t2 db1, Err (NotFoundError id)) /\
    map Todo.ID (gorm.todos db1) = map Todo.ID (gorm.todos db) /\
    (forall r, In r (gorm.todos db1) -> Todo.ID r = id -> Todo.DeletedAt r <> None).
Proof.
  intros Hlive Hread Hwrite.
  destruct (GetTodoByID_live id db Hread Hlive) as [old Hget].
  rewrite (DeleteTodo_fetched id db old Hget Hwrite).
  eexists. split; [reflexivity|]. cbn. split; [|split].
  - unfold DeleteTodo. rewrite GetTodoByID_unfold. cbn.
    rewrite Hread, find_after_soft_delete. reflexivity.
  - apply soft_delete_keeps_ids.
  - apply soft_delete_marks.
Qed.

Lemma C4_delete_twice_not_found_witness :
  exists db1,
    DeleteTodo 1 sample_db = (db1, Ok tt) /\
    DeleteTodo 1 (gorm.at_time 11 db1)
      = (gorm.at_time 11 db1, Err (NotFoundError 1)) /\
    map Todo.ID (gorm.todos db1) = map Todo.ID (gorm.todos sample_db) /\
    (forall r, In r (gorm.todos db1) -> Todo.ID r = 1 -> Todo.DeletedAt r <> None).
Proof.
  apply (C4_delete_twice_not_found 1 sample_db 11);
    [exact sample_db_live_1 | reflexivity | reflexivity].
Defined.

(** C4 as stated fails: on the sample table, deleting the live row 1 twice
    in sequence, the second call reports "not found", not "already
    deleted". *)
Lemma C4_second_delete_is_not_already_deleted :
  live_entity 1 sample_db /\
  snd (DeleteTodo 1 sample_db) = Ok tt /\
  snd (DeleteTodo 1 (gorm.at_time 11 (fst (DeleteTodo 1 sample_db))))
    = Err (NotFoundError 1) /\
  snd (DeleteTodo 1 (gorm.at_time 11 (fst (DeleteTodo 1 sample_db))))
    <> Err (AlreadyDeletedError 1).
Proof.
  split; [exact sample_db_live_1|].
  split; [reflexivity|]. split; [reflexivity | discriminate].
Qed.

(** *** The empty update *)

Lemma merged_empty (old : Todo.t) : merged TodoUpdateRequest.empty old = old.
Proof. now destruct old. Qed.

(** An empty update of a fetched row, the store taking the write: every live
    row of that identifier becomes [old] stamped with the current time. *)
Lemma UpdateTodo_empty (id : N) (db : gorm.DB) (old : Todo.t) :
  GetTodoByID id db = Ok old -> gorm.write_fault db = false ->
  UpdateTodo id TodoUpdateRequest.empty db =
  (gorm.with_todos
     (map (fun r => if gorm.live_with_id id r
                    then Todo.with_UpdatedAt (gorm.now db) old else r)
          (gorm.todos db)) db,
   Ok (Todo.with_UpdatedAt (gorm.now db) old)).
Proof.
  intros Hget Hwrite.
  rewrite (UpdateTodo_fetched _ _ _ _ Hget), apply_update_merges, Hwrite
    by discriminate.
  now rewrite merged_empty.
Qed.

Lemma map_restamp (id : N) (a b : Todo.t) (l : list Todo.t) :
  gorm.live_with_id id a = true ->
  map (fun r => if gorm.live_with_id id r then b else r)
      (map (fun r => if gorm.live_with_id id r then a else r) l)
  = map (fun r => if gorm.live_with_id id r then b else r) l.
Proof.
  intros Ha. rewrite map_map. apply map_ext. intros r.
  destruct (gorm.live_with_id id r) eqn:Hr; [now rewrite Ha | now rewrite Hr].
Qed.

(** C9, as the code has it. On a live entity [old], with the store taking
    writes, an empty update at time [t1] returns [old] with only [UpdatedAt]
    set to [t1]; a second empty update at time [t2] returns the same entity
    with only [UpdatedAt] set to [t2], and leaves the store exactly as a
    single empty update at time [t2] would have. Title, description,
    completed flag, priority, due date, identifier and creation time are
    those of [old] throughout. *)
Theorem C9_empty_update_idempotent_but_timestamp (id : N) (db : gorm.DB)
    (old : Todo.t) (t1 t2 : Time) :
  GetTodoByID id db = Ok old -> gorm.write_fault db = false ->
  let once := UpdateTodo id TodoUpdateRequest.empty (gorm.at_time t1 db) in
  let twice := UpdateTodo id TodoUpdateRequest.empty (gorm.at_time t2 (fst once)) in
  snd once = Ok (Todo.with_UpdatedAt t1 old) /\
  snd twice = Ok (Todo.with_UpdatedAt t2 old) /\
  twice = UpdateTodo id TodoUpdateRequest.empty (gorm.at_time t2 db) /\
  Todo.Priority (Todo.with_UpdatedAt t2 old) = Todo.Priority old.
Proof.
  intros Hget Hwrite once twice. subst twice once.
  assert (GetTodoByID id (gorm.at_time t1 db) = Ok old) as Hget1
    by now rewrite GetTodoByID_at_time.
  assert (GetTodoByID id (gorm.at_time t2 db) = Ok old) as Hget2
    by now rewrite GetTodoByID_at_time.
  rewrite (UpdateTodo_empty id _ old Hget1 Hwrite),
          (UpdateTodo_empty id _ old Hget2 Hwrite). cbn.
  pose proof Hget as Hfetch.
  apply GetTodoByID_Ok in Hfetch as (Hread & _ & Hl & Hid).
  assert (gorm.live_with_id id (Todo.with_UpdatedAt t1 old) = true) as Hlive1.
  { apply live_with_id_true. split; [|exact Hid]. apply live_None. cbn.
    now apply live_None. }
  assert (GetTodoByID id
            (gorm.at_time t2
               (gorm.with_todos
                  (map (fun r => if gorm.live_with_id id r
                                 then Todo.with_UpdatedAt t1 old else r)
                       (gorm.todos db)) (gorm.at_time t1 db)))
          = Ok (Todo.with_UpdatedAt t1 old)) as Hget3.
  { rewrite GetTodoByID_unfold in *. cbn. rewrite Hread in *.
    destruct (List.find _ (gorm.todos db)) as [r|] eqn:Hfind; [|discriminate].
    erewrite find_map_hit; [reflexivity | exact Hlive1 | exact Hfind]. }
  rewrite (UpdateTodo_empty id _ _ Hget3 Hwrite). cbn.
  split; [reflexivity|]. split; [reflexivity|]. split; [|reflexivity].
  unfold gorm.with_todos, gorm.at_time; cbn.
  rewrite (map_restamp id _ _ _ Hlive1). reflexivity.
Qed.

Lemma C9_empty_update_idempotent_but_timestamp_witness :
  snd (UpdateTodo 1 TodoUpdateRequest.empty (gorm.at_time 10 sample_db))
    = Ok (Todo.with_UpdatedAt 10 row_high) /\
  snd (UpdateTodo 1 TodoUpdateRequest.empty
         (gorm.at_time 20
            (fst (UpdateTodo 1 TodoUpdateRequest.empty (gorm.at_time 10 sample_db)))))
    = Ok (Todo.with_UpdatedAt 20 row_high).
Proof.
  destruct (C9_empty_update_idempotent_but_timestamp 1 sample_db row_high 10 20
              eq_refl eq_refl) as (H1 & H2 & _).
  split; [exact H1 | exact H2].
Defined.

(** C9 as stated fails: on the sample table, an empty update of row 1 at
    time 10 followed by a second one at time 20 leaves an entity, returned
    and stored, that differs from the one left by the first alone. *)
Lemma C9_twice_differs_from_once :
  let once := UpdateTodo 1 TodoUpdateRequest.empty sample_db in
  let twice := UpdateTodo 1 TodoUpdateRequest.empty (gorm.at_time 20 (fst once)) in
  GetTodoByID 1 sample_db = Ok row_high /\
  snd once = Ok (Todo.with_UpdatedAt 10 row_high) /\
  snd twice = Ok (Todo.with_UpdatedAt 20 row_high) /\
  snd twice <> snd once /\
  GetTodoByID 1 (fst twice) <> GetTodoByID 1 (fst once) /\
  gorm.todos (fst twice) <> gorm.todos (fst once).
Proof.
  cbn zeta. split; [reflexivity|]. split; [reflexivity|]. split; [reflexivity|].
  split; [discriminate|]. split; vm_compute; discriminate.
Qed.

(** *** Listings *)

Lemma Find_answers (where_ : Todo.t -> bool) (order : Todo.t -> Todo.t -> bool)
    (db : gorm.DB) :
  gorm.read_fault db = false ->
  exists n,
    gorm.Find where_ order db =
    (gorm.mkResult None n,
     merge_sort (gorm.precedes order)
                (filter (fun r => gorm.live r && where_ r = true) (gorm.todos db))).
Proof. intros Hread. unfold gorm.Find. rewrite Hread. eauto. Qed.

Lemma Find_fails (where_ : Todo.t -> bool) (order : Todo.t -> Todo.t -> bool)
    (db : gorm.DB) :
  gorm.read_fault db = true ->
  gorm.Find where_ order db = (gorm.mkResult (Some gorm.ErrStatement) 0, []).
Proof. intros Hread. unfold gorm.Find. now rewrite Hread. Qed.

#[local] Instance created_at_DESC_total : Total (gorm.precedes gorm.created_at_DESC).
Proof.
  intros a b. unfold gorm.precedes, gorm.created_at_DESC.
  rewrite !N.leb_le. lia.
Qed.

#[local] Instance created_at_DESC_trans :
  Transitive (gorm.precedes gorm.created_at_DESC).
Proof.
  intros a b c. unfold gorm.precedes, gorm.created_at_DESC.
  rewrite !N.leb_le. lia.
Qed.

Lemma sorted_newest_first (l : list Todo.t) :
  StronglySorted newest_first (merge_sort (gorm.precedes gorm.created_at_DESC) l).
Proof.
  pose proof (StronglySorted_merge_sort (gorm.precedes gorm.created_at_DESC) l) as Hs.
  induction Hs as [|x m Hs IH Hall]; constructor; [exact IH|].
  eapply Forall_impl; [exact Hall|]. intros y Hy.
  unfold newest_first. now apply N.leb_le.
Qed.

Lemma filter_live_where (where_ : Todo.t -> bool) (P : Todo.t -> Prop)
    `{!forall r, Decision (P r)} (l : list Todo.t) :
  (forall r, where_ r = true <-> P r) ->
  filter (fun r => gorm.live r && where_ r = true) l
  = filter (fun r => gorm.live r = true /\ P r) l.
Proof.
  intros Hw. apply list_filter_iff. intros r.
  rewrite andb_true_iff, Hw. tauto.
Qed.

(** C7. With the store answering reads, [GetTodosByPriority p] for a member
    [p] of the enumeration returns the live rows whose priority is [p], each
    as often as the table holds it and nothing else, newest created first;
    and [GetAllTodos] returns the live rows, newest created first. *)
Theorem C7_listings_newest_first (p : Priority) (db : gorm.DB) :
  gorm.read_fault db = false ->
  (valid_priority p ->
     exists l,
       GetTodosByPriority p db = Ok l /\
       Permutation l (filter (fun r => gorm.live r = true /\ Todo.Priority r = p)
                             (gorm.todos db)) /\
       StronglySorted newest_first l) /\
  (exists l,
     GetAllTodos db = Ok l /\
     Permutation l (live_rows db) /\
     StronglySorted newest_first l).
Proof.
  intros Hread. split.
  - intros Hv. apply IsValid_true_iff in Hv.
    unfold GetTodosByPriority. rewrite Hv. cbn.
    destruct (Find_answers (fun r => String.eqb (Todo.Priority r) p)
                gorm.created_at_DESC db Hread) as [n ->]. cbn.
    eexists. split; [reflexivity|]. split; [|apply sorted_newest_first].
    rewrite merge_sort_Permutation.
    rewrite (filter_live_where _ (fun r => Todo.Priority r = p)); [reflexivity|].
    intros r. apply String.eqb_eq.
  - unfold GetAllTodos.
    destruct (Find_answers (fun _ => true) gorm.created_at_DESC db Hread) as [n ->].
    cbn. eexists. split; [reflexivity|]. split; [|apply sorted_newest_first].
    rewrite merge_sort_Permutation. unfold live_rows.
    erewrite list_filter_iff; [reflexivity|].
    intros r. cbn. rewrite andb_true_r. reflexivity.
Qed.

Lemma C7_listings_newest_first_witness :
  (exists l,
     GetTodosByPriority "high" sample_db = Ok l /\
     Permutation l (filter (fun r => gorm.live r = true /\ Todo.Priority r = "high")
                           (gorm.todos sample_db)) /\
     StronglySorted newest_first l) /\
  (exists l,
     GetAllTodos sample_db = Ok l /\
     Permutation l (live_rows sample_db) /\
     StronglySorted newest_first l).
Proof.
  destruct (C7_listings_newest_first "high" sample_db eq_refl) as [Hp Hall].
  split; [|exact Hall].
  apply Hp. right; right; left; reflexivity.
Defined.

Example GetTodosByPriority_sample :
  GetTodosByPriority "high" sample_db = Ok [row_high] /\
  GetAllTodos sample_db = Ok [row_done; row_low; row_high].
Proof. split; reflexivity. Qed.

Lemma pending_completed_split (l : list Todo.t) :
  Permutation
    (filter (fun r => gorm.live r && Bool.eqb (Todo.Completed r) false = true) l ++
     filter (fun r => gorm.live r && Bool.eqb (Todo.Completed r) true = true) l)
    (filter (fun r => gorm.live r = true) l).
Proof.
  induction l as [|x l IH]; [constructor|].
  rewrite !filter_cons.
  destruct (gorm.live x) eqn:Hlive, (Todo.Completed x) eqn:Hdone; cbn;
    repeat case_decide; try congruence.
  - rewrite <- Permutation_middle. now constructor.
  - cbn. now constructor.
Qed.

Lemma Find_where_holds (where_ : Todo.t -> bool) (order : Todo.t -> Todo.t -> bool)
    (db : gorm.DB) (r : Todo.t) :
  In r (snd (gorm.Find where_ order db)) ->
  where_ r = true /\ gorm.live r = true /\ In r (gorm.todos db).
Proof.
  unfold gorm.Find. destruct (gorm.read_fault db); cbn; [contradiction|].
  intros Hin. apply list_elem_of_In in Hin.
  rewrite merge_sort_Permutation in Hin.
  apply list_elem_of_filter in Hin as [Hw Hin].
  apply andb_true_iff in Hw. apply list_elem_of_In in Hin. tauto.
Qed.

Lemma GetPendingTodos_Ok (db : gorm.DB) (ps : list Todo.t) :
  GetPendingTodos db = Ok ps ->
  ps = snd (gorm.Find (fun r => Bool.eqb (Todo.Completed r) false)
                      gorm.priority_DESC_created_at_DESC db).
Proof.
  unfold GetPendingTodos. destruct (gorm.Find _ _ db) as [res l].
  destruct (gorm.Error res); [discriminate|]. now intros [= ->].
Qed.

Lemma GetCompletedTodos_Ok (db : gorm.DB) (cs : list Todo.t) :
  GetCompletedTodos db = Ok cs ->
  cs = snd (gorm.Find (fun r => Bool.eqb (Todo.Completed r) true)
                      gorm.updated_at_DESC db).
Proof.
  unfold GetCompletedTodos. destruct (gorm.Find _ _ db) as [res l].
  destruct (gorm.Error res); [discriminate|]. now intros [= ->].
Qed.

(** C8. In every store state, whatever [GetPendingTodos] returns has
    [Completed = false] and whatever [GetCompletedTodos] returns has
    [Completed = true]; and when the store answers reads both return, their
    results together are the live rows, each exactly as often as the table
    holds it, and no entity is in both. *)
Theorem C8_pending_completed_partition (db : gorm.DB) :
  (forall ps, GetPendingTodos db = Ok ps ->
     Forall (fun r => Todo.Completed r = false) ps) /\
  (forall cs, GetCompletedTodos db = Ok cs ->
     Forall (fun r => Todo.Completed r = true) cs) /\
  (gorm.read_fault db = false ->
     exists ps cs,
       GetPendingTodos db = Ok ps /\ GetCompletedTodos db = Ok cs /\
       Permutation (ps ++ cs) (live_rows db) /\
       (forall r, In r (live_rows db) ->
          (In r ps /\ ~ In r cs) \/ (In r cs /\ ~ In r ps)) /\
       (forall r, ~ (In r ps /\ In r cs))).
Proof.
  assert (forall ps, GetPendingTodos db = Ok ps ->
            Forall (fun r => Todo.Completed r = false) ps) as Hpend.
  { intros ps Hps. apply GetPendingTodos_Ok in Hps as ->.
    apply List.Forall_forall. intros r Hin.
    apply Find_where_holds in Hin as [Hw _].
    now destruct (Todo.Completed r). }
  assert (forall cs, GetCompletedTodos db = Ok cs ->
            Forall (fun r => Todo.Completed r = true) cs) as Hcomp.
  { intros cs Hcs. apply GetCompletedTodos_Ok in Hcs as ->.
    apply List.Forall_forall. intros r Hin.
    apply Find_where_holds in Hin as [Hw _].
    now destruct (Todo.Completed r). }
  split; [exact Hpend|]. split; [exact Hcomp|].
  intros Hread.
  destruct (Find_answers (fun r => Bool.eqb (Todo.Completed r) false)
              gorm.priority_DESC_created_at_DESC db Hread) as [n Hfp].
  destruct (Find_answers (fun r => Bool.eqb (Todo.Completed r) true)
              gorm.updated_at_DESC db Hread) as [m Hfc].
  assert (exists ps, GetPendingTodos db = Ok ps /\
            ps = snd (gorm.Find (fun r => Bool.eqb (Todo.Completed r) false)
                                gorm.priority_DESC_created_at_DESC db))
    as (ps & Hps & Eps).
  { unfold GetPendingTodos. rewrite Hfp. cbn. eauto. }
  assert (exists cs, GetCompletedTodos db = Ok cs /\
            cs = snd (gorm.Find (fun r => Bool.eqb (Todo.Completed r) true)
                                gorm.updated_at_DESC db))
    as (cs & Hcs & Ecs).
  { unfold GetCompletedTodos. rewrite Hfc. cbn. eauto. }
  assert (Permutation (ps ++ cs) (live_rows db)) as Hperm.
  { rewrite Eps, Ecs, Hfp, Hfc. cbn. rewrite !merge_sort_Permutation.
    apply pending_completed_split. }
  assert (forall r, ~ (In r ps /\ In r cs)) as Hdisj.
  { intros r [Hp Hc].
    pose proof (proj1 (List.Forall_forall _ _) (Hpend ps Hps) r Hp) as H1.
    pose proof (proj1 (List.Forall_forall _ _) (Hcomp cs Hcs) r Hc) as H2.
    cbn in *. congruence. }
  exists ps, cs. split; [exact Hps|]. split; [exact Hcs|].
  split; [exact Hperm|]. split; [|exact Hdisj].
  intros r Hin.
  assert (In r (ps ++ cs)) as Hin'.
  { eapply Permutation_in; [symmetry; exact Hperm | exact Hin]. }
  apply in_app_or in Hin' as [Hp | Hc].
  - left. split; [exact Hp|]. intros Hc. apply (Hdisj r). tauto.
  - right. split; [exact Hc|]. intros Hp. apply (Hdisj r). tauto.
Qed.

Lemma C8_pending_completed_partition_witness :
  Forall (fun r => Todo.Completed r = false) [row_low; row_high] /\
  Forall (fun r => Todo.Completed r = true) [row_done] /\
  exists ps cs,
    GetPendingTodos sample_db = Ok ps /\ GetCompletedTodos sample_db = Ok cs /\
    Permutation (ps ++ cs) (live_rows sample_db) /\
    (forall r, In r (live_rows sample_db) ->
       (In r ps /\ ~ In r cs) \/ (In r cs /\ ~ In r ps)) /\
    (forall r, ~ (In r ps /\ In r cs)).
Proof.
  destruct (C8_pending_completed_partition sample_db) as (Hp & Hc & Hpart).
  split; [apply Hp; reflexivity|]. split; [apply Hc; reflexivity|].
  apply Hpart. reflexivity.
Defined.

(** *** The order of the pending listing *)

#[local] Instance priority_DESC_created_at_DESC_total :
  Total (gorm.precedes gorm.priority_DESC_created_at_DESC).
Proof.
  intros a b. unfold gorm.precedes, gorm.priority_DESC_created_at_DESC.
  rewrite (String.compare_antisym (Todo.Priority b) (Todo.Priority a)).
  destruct (String.compare (Todo.Priority a) (Todo.Priority b)); unfold CompOpp.
  - rewrite !N.leb_le. lia.
  - now right.
  - now left.
Qed.

(** What the code does: the pending listing is sorted by the priority column
    compared as text, descending, then by creation time, descending. *)
Lemma GetPendingTodos_sorted_as_text (db : gorm.DB) (ps : list Todo.t) :
  GetPendingTodos db = Ok ps ->
  Sorted (gorm.precedes gorm.priority_DESC_created_at_DESC) ps.
Proof.
  intros Hps. apply GetPendingTodos_Ok in Hps as ->.
  unfold gorm.Find. destruct (gorm.read_fault db); cbn; [constructor|].
  apply Sorted_merge_sort. apply _.
Qed.

(** As text, descending, the four members come urgent, medium, low, high. *)
Lemma priority_column_order :
  merge_sort (gorm.precedes gorm.priority_DESC_created_at_DESC)
    [Todo.with_Priority PriorityLow row_high;
     Todo.with_Priority PriorityMedium row_high;
     Todo.with_Priority PriorityHigh row_high;
     Todo.with_Priority PriorityUrgent row_high]
  = [Todo.with_Priority PriorityUrgent row_high;
     Todo.with_Priority PriorityMedium row_high;
     Todo.with_Priority PriorityLow row_high;
     Todo.with_Priority PriorityHigh row_high].
Proof. reflexivity. Qed.

(** C5 on the sample table, whose pending rows are a high-priority one and a
    low-priority one: [GetPendingTodos] lists the low-priority row first,
    although its severity rank is the lower of the two, so the listing is
    not in descending severity order. *)
Theorem C5_pending_lists_low_before_high :
  GetPendingTodos sample_db = Ok [row_low; row_high] /\
  severity_rank (Todo.Priority row_low) < severity_rank (Todo.Priority row_high) /\
  severity_DESC_created_at_DESC row_low row_high = false /\
  ~ Sorted (gorm.precedes severity_DESC_created_at_DESC) [row_low; row_high].
Proof.
  split; [reflexivity|]. split; [reflexivity|]. split; [reflexivity|].
  intros Hs. inversion Hs as [|? ? _ Hhd]; subst.
  inversion Hhd as [|? ? Hrel]; subst. discriminate Hrel.
Qed.

(** ** Further properties of the service *)

(** *** The completed and the pending listing *)

#[local] Instance updated_at_DESC_total : Total (gorm.precedes gorm.updated_at_DESC).
Proof.
  intros a b. unfold gorm.precedes, gorm.updated_at_DESC.
  rewrite !N.leb_le. lia.
Qed.

#[local] Instance updated_at_DESC_trans :
  Transitive (gorm.precedes gorm.updated_at_DESC).
Proof.
  intros a b c. unfold gorm.precedes, gorm.updated_at_DESC.
  rewrite !N.leb_le. lia.
Qed.

(** [GetCompletedTodos], the store answering reads, returns the live rows
    with [Completed = true], each as often as the table holds it, most
    recently updated first. *)
Theorem GetCompletedTodos_most_recently_updated_first (db : gorm.DB) :
  gorm.read_fault db = false ->
  exists l,
    GetCompletedTodos db = Ok l /\
    Permutation l (filter (fun r => gorm.live r = true /\ Todo.Completed r = true)
                          (gorm.todos db)) /\
    StronglySorted most_recently_updated_first l.
Proof.
  intros Hread. unfold GetCompletedTodos.
  destruct (Find_answers (fun r => Bool.eqb (Todo.Completed r) true)
              gorm.updated_at_DESC db Hread) as [n ->]. cbn.
  eexists. split; [reflexivity|]. split.
  - rewrite merge_sort_Permutation.
    rewrite (filter_live_where _ (fun r => Todo.Completed r = true));
      [reflexivity|].
    intros r. now destruct (Todo.Completed r).
  - pose proof (StronglySorted_merge_sort (gorm.precedes gorm.updated_at_DESC)
                  (filter (fun r => gorm.live r
                                    && Bool.eqb (Todo.Completed r) true = true)
                          (gorm.todos db))) as Hs.
    induction Hs as [|x m Hs IH Hall]; constructor; [exact IH|].
    eapply Forall_impl; [exact Hall|]. intros y Hy.
    unfold most_recently_updated_first. now apply N.leb_le.
Qed.

Lemma GetCompletedTodos_most_recently_updated_first_witness :
  exists l,
    GetCompletedTodos sample_db = Ok l /\
    Permutation l (filter (fun r => gorm.live r = true /\ Todo.Completed r = true)
                          (gorm.todos sample_db)) /\
    StronglySorted most_recently_updated_first l.
Proof.
  apply (GetCompletedTodos_most_recently_updated_first sample_db). reflexivity.
Defined.

Lemma column_order_of_text_order (a b : Todo.t) :
  IsValid (Todo.Priority a) = true -> IsValid (Todo.Priority b) = true ->
  gorm.precedes gorm.priority_DESC_created_at_DESC a b -> column_order a b.
Proof.
  intros Ha Hb. apply IsValid_true_iff in Ha, Hb.
  unfold gorm.precedes, gorm.priority_DESC_created_at_DESC, column_order.
  destruct Ha as [-> | [-> | [-> | ->]]], Hb as [-> | [-> | [-> | ->]]];
    match goal with
    | |- context [String.compare ?x ?y] =>
      let c := eval vm_compute in (String.compare x y) in
      change (String.compare x y) with c
    end;
    repeat match goal with
    | |- context [column_rank ?x] =>
      let c := eval vm_compute in (column_rank x) in
      change (column_rank x) with c
    end;
    cbv iota; rewrite ?N.leb_le; intros H;
    try discriminate H; try (left; reflexivity); right; split;
    try reflexivity; exact H.
Qed.

#[local] Instance column_order_trans : Transitive column_order.
Proof. intros a b c. unfold column_order. lia. Qed.

Lemma sorted_by_column_order (l : list Todo.t) :
  Forall (fun r => IsValid (Todo.Priority r) = true) l ->
  Sorted (gorm.precedes gorm.priority_DESC_created_at_DESC) l ->
  StronglySorted column_order l.
Proof.
  intros Hv Hs. apply Sorted_StronglySorted; [apply column_order_trans|].
  induction Hs as [|x m Hs IH Hhd]; constructor.
  - apply IH. now inversion Hv.
  - inversion Hv as [|? ? Hx Hm]; subst.
    destruct Hhd as [|y m' Hxy]; constructor.
    apply column_order_of_text_order; [exact Hx | now inversion Hm | exact Hxy].
Qed.

(** [GetPendingTodos], the store answering reads and holding only members of
    the enumeration, returns the live rows with [Completed = false], each as
    often as the table holds it, in the order urgent, medium, low, high, and
    newest created first within one priority. *)
Theorem GetPendingTodos_column_order (db : gorm.DB) :
  gorm.read_fault db = false -> priorities_valid db ->
  exists l,
    GetPendingTodos db = Ok l /\
    Permutation l (filter (fun r => gorm.live r = true /\ Todo.Completed r = false)
                          (gorm.todos db)) /\
    StronglySorted column_order l.
Proof.
  intros Hread Hvalid. unfold GetPendingTodos.
  destruct (Find_answers (fun r => Bool.eqb (Todo.Completed r) false)
              gorm.priority_DESC_created_at_DESC db Hread) as [n ->]. cbn.
  eexists. split; [reflexivity|].
  assert (Permutation
            (merge_sort (gorm.precedes gorm.priority_DESC_created_at_DESC)
               (filter (fun r => gorm.live r
                                 && Bool.eqb (Todo.Completed r) false = true)
                       (gorm.todos db)))
            (filter (fun r => gorm.live r = true /\ Todo.Completed r = false)
                    (gorm.todos db))) as Hperm.
  { rewrite merge_sort_Permutation.
    rewrite (filter_live_where _ (fun r => Todo.Completed r = false));
      [reflexivity|].
    intros r. now destruct (Todo.Completed r). }
  split; [exact Hperm|].
  apply sorted_by_column_order; [|apply Sorted_merge_sort; apply _].
  apply List.Forall_forall. intros r Hin.
  eapply Permutation_in in Hin; [|exact Hperm].
  apply list_elem_of_In, list_elem_of_filter in Hin as [_ Hin].
  apply list_elem_of_In in Hin.
  exact (proj1 (List.Forall_forall _ _) Hvalid r Hin).
Qed.

Lemma sample_db_priorities_valid : priorities_valid sample_db.
Proof. repeat constructor. Defined.

Lemma GetPendingTodos_column_order_witness :
  exists l,
    GetPendingTodos sample_db = Ok l /\
    Permutation l (filter (fun r => gorm.live r = true /\ Todo.Completed r = false)
                          (gorm.todos sample_db)) /\
    StronglySorted column_order l.
Proof.
  apply (GetPendingTodos_column_order sample_db);
    [reflexivity | exact sample_db_priorities_valid].
Defined.

(** *** What each mutating operation does to the store *)

Lemma with_todos_same (db : gorm.DB) : gorm.with_todos (gorm.todos db) db = db.
Proof. now destruct db. Qed.

(** [CreateTodo]: either an error with every row as it was, or one row
    appended, stamped with the clock and numbered by the sequence. *)
Lemma CreateTodo_outcome (req : TodoCreateRequest.t) (db : gorm.DB) :
  (exists req' db' e,
     CreateTodo req db = (req', db', Err e) /\
     gorm.todos db' = gorm.todos db /\
     gorm.next_id db <= gorm.next_id db' /\
     gorm.now db' = gorm.now db /\
     gorm.read_fault db' = gorm.read_fault db /\
     gorm.write_fault db' = gorm.write_fault db) \/
  (exists req' todo,
     accepts_insert db /\
     CreateTodo req db
       = (req',
          gorm.mkDB (gorm.todos db ++ [todo]) (N.succ (gorm.next_id db))
                    (gorm.now db) (gorm.read_fault db) (gorm.write_fault db),
          Ok todo) /\
     todo = Todo.mk (gorm.next_id db) (TodoCreateRequest.Title req)
                    (TodoCreateRequest.Description req) false
                    (TodoCreateRequest.Priority req') (TodoCreateRequest.DueDate req)
                    (gorm.now db) (gorm.now db) None /\
     IsValid (TodoCreateRequest.Priority req') = true).
Proof.
  unfold CreateTodo, accepts_insert.
  destruct (negb (String.eqb (TodoCreateRequest.Priority req) EmptyString)
            && negb (IsValid (TodoCreateRequest.Priority req))) eqn:Hchk.
  { left. eexists _, _, _. split; [reflexivity|]. repeat split.
    apply N.le_refl. }
  unfold gorm.Create.
  destruct (gorm.write_fault db) eqn:Hw.
  { left. eexists _, _, _. split; [reflexivity|].
    repeat split; [apply N.le_refl | exact Hw]. }
  destruct (existsb _ _) eqn:Hdup; cbn.
  { left. eexists _, _, _. split; [reflexivity|]. cbn.
    repeat split; try exact Hw. apply N.le_succ_diag_r. }
  right. eexists _, _. split; [split; reflexivity|]. split; [reflexivity|].
  destruct (String.eqb_spec (TodoCreateRequest.Priority req) EmptyString)
    as [He|Hne]; cbn.
  - split; reflexivity.
  - split; [reflexivity|]. cbn in Hchk.
    now destruct (IsValid (TodoCreateRequest.Priority req)).
Qed.

(** [UpdateTodo]: either an error with the store as it was, or every live
    row of the identifier replaced by the merged entity, stamped with the
    clock. *)
Lemma UpdateTodo_outcome (id : N) (req : TodoUpdateRequest.t) (db : gorm.DB) :
  (exists e, UpdateTodo id req db = (db, Err e)) \/
  (exists old,
     GetTodoByID id db = Ok old /\
     (forall p, TodoUpdateRequest.Priority req = Some p -> IsValid p = true) /\
     gorm.write_fault db = false /\
     UpdateTodo id req db
       = (gorm.with_todos
            (map (fun r => if gorm.live_with_id id r
                           then Todo.with_UpdatedAt (gorm.now db) (merged req old)
                           else r)
                 (gorm.todos db)) db,
          Ok (Todo.with_UpdatedAt (gorm.now db) (merged req old)))).
Proof.
  destruct (GetTodoByID id db) as [old|e] eqn:Hget.
  - rewrite (UpdateTodo_fetched _ _ _ _ Hget).
    pose proof (apply_update_cases req old) as Hc.
    destruct (TodoUpdateRequest.Priority req) as [p|] eqn:Hp;
      [destruct (IsValid p) eqn:Hv|]; rewrite Hc.
    + destruct (gorm.write_fault db) eqn:Hw; [left; eauto|].
      right. exists old. repeat split. intros q [= <-]. exact Hv.
    + left; eauto.
    + destruct (gorm.write_fault db) eqn:Hw; [left; eauto|].
      right. exists old. repeat split. discriminate.
  - left. unfold UpdateTodo. rewrite Hget. eauto.
Qed.

(** [DeleteTodo]: either an error with the store as it was, or every live
    row of the identifier marked with the clock. *)
Lemma DeleteTodo_outcome (id : N) (db : gorm.DB) :
  (exists e, DeleteTodo id db = (db, Err e) /\
             forall id', e <> AlreadyDeletedError id') \/
  (exists old,
     GetTodoByID id db = Ok old /\ gorm.write_fault db = false /\
     DeleteTodo id db
       = (gorm.with_todos
            (map (fun r => if gorm.live_with_id id r
                           then Todo.with_DeletedAt (Some (gorm.now db)) r else r)
                 (gorm.todos db)) db,
          Ok tt)).
Proof.
  destruct (GetTodoByID id db) as [old|e] eqn:Hget.
  - destruct (gorm.write_fault db) eqn:Hw.
    + left. unfold DeleteTodo, DeleteTodo_statement, gorm.Delete.
      rewrite Hget, Hw. cbn. eexists. split; [reflexivity | discriminate].
    + right. exists old. split; [reflexivity|]. split; [reflexivity|].
      now apply DeleteTodo_fetched with (old := old).
  - left. unfold DeleteTodo. rewrite Hget. exists e. split; [reflexivity|].
    rewrite GetTodoByID_unfold in Hget.
    destruct (gorm.read_fault db); [intros id'; congruence|].
    destruct (List.find _ _); intros id'; congruence.
Qed.

(** A call that returns an error has changed no row: [UpdateTodo] and
    [DeleteTodo] leave the whole store as it was, [CreateTodo] the table. *)
Theorem failed_call_changes_no_row :
  (forall req db e,
     snd (CreateTodo req db) = Err e ->
     gorm.todos (snd (fst (CreateTodo req db))) = gorm.todos db) /\
  (forall id req db e,
     snd (UpdateTodo id req db) = Err e -> fst (UpdateTodo id req db) = db) /\
  (forall id db e,
     snd (DeleteTodo id db) = Err e -> fst (DeleteTodo id db) = db).
Proof.
  split; [|split].
  - intros req db e.
    destruct (CreateTodo_outcome req db)
      as [(req' & db' & e' & -> & Hrows & _) | (req' & todo & _ & -> & _)]; cbn.
    + intros _. exact Hrows.
    + discriminate.
  - intros id req db e.
    destruct (UpdateTodo_outcome id req db) as [[e' ->] | (old & _ & _ & _ & ->)];
      cbn; [reflexivity | discriminate].
  - intros id db e.
    destruct (DeleteTodo_outcome id db) as [(e' & -> & _) | (old & _ & _ & ->)];
      cbn; [reflexivity | discriminate].
Qed.

Lemma failed_call_changes_no_row_witness :
  gorm.todos (snd (fst (CreateTodo (buy_milk "invalid") sample_db)))
    = gorm.todos sample_db /\
  fst (UpdateTodo 4 TodoUpdateRequest.empty sample_db) = sample_db /\
  fst (DeleteTodo 4 sample_db) = sample_db.
Proof.
  destruct failed_call_changes_no_row as (Hc & Hu & Hd).
  split; [|split].
  - apply (Hc (buy_milk "invalid") sample_db (ValidationError "invalid")).
    reflexivity.
  - apply (Hu 4 TodoUpdateRequest.empty sample_db (NotFoundError 4)). reflexivity.
  - apply (Hd 4 sample_db (NotFoundError 4)). reflexivity.
Defined.

(** [DeleteTodo] run on its own never returns the already-deleted error:
    once its existence check has passed, the delete statement affects at
    least the row just fetched. *)
Theorem DeleteTodo_never_already_deleted (id id' : N) (db : gorm.DB) :
  snd (DeleteTodo id db) <> Err (AlreadyDeletedError id').
Proof.
  destruct (DeleteTodo_outcome id db) as [(e & -> & He) | (old & _ & _ & ->)]; cbn.
  - intros [= ->]. now apply (He id').
  - discriminate.
Qed.

Lemma ids_after_restamp (id : N) (row : Todo.t) (l : list Todo.t) :
  Todo.ID row = id ->
  map Todo.ID (map (fun r => if gorm.live_with_id id r then row else r) l)
  = map Todo.ID l.
Proof.
  intros Hid. induction l as [|x l IH]; cbn; [reflexivity|].
  rewrite IH. destruct (gorm.live_with_id id x) eqn:Hx; [|reflexivity].
  apply live_with_id_true in Hx as [_ Hx]. congruence.
Qed.

(** No operation removes a row or renumbers one: [UpdateTodo] and
    [DeleteTodo] leave the identifier column and the sequence as they were,
    and [CreateTodo] leaves the table as it was or appends one row numbered
    by the sequence. *)
Theorem rows_stay (id : N) (ureq : TodoUpdateRequest.t)
    (creq : TodoCreateRequest.t) (db : gorm.DB) :
  ids (fst (UpdateTodo id ureq db)) = ids db /\
  gorm.next_id (fst (UpdateTodo id ureq db)) = gorm.next_id db /\
  ids (fst (DeleteTodo id db)) = ids db /\
  gorm.next_id (fst (DeleteTodo id db)) = gorm.next_id db /\
  (gorm.todos (snd (fst (CreateTodo creq db))) = gorm.todos db \/
   exists todo,
     snd (CreateTodo creq db) = Ok todo /\
     Todo.ID todo = gorm.next_id db /\
     gorm.todos (snd (fst (CreateTodo creq db))) = (gorm.todos db ++ [todo])%list).
Proof.
  unfold ids. split; [|split; [|split; [|split]]].
  - destruct (UpdateTodo_outcome id ureq db)
      as [[e ->] | (old & Hget & _ & _ & ->)]; cbn; [reflexivity|].
    apply ids_after_restamp. cbn.
    now apply GetTodoByID_Ok in Hget as (_ & _ & _ & Hid).
  - destruct (UpdateTodo_outcome id ureq db)
      as [[e ->] | (old & Hget & _ & _ & ->)]; reflexivity.
  - destruct (DeleteTodo_outcome id db) as [(e & -> & _) | (old & _ & _ & ->)];
      cbn; [reflexivity|]. apply soft_delete_keeps_ids.
  - destruct (DeleteTodo_outcome id db) as [(e & -> & _) | (old & _ & _ & ->)];
      reflexivity.
  - destruct (CreateTodo_outcome creq db)
      as [(req' & db' & e' & -> & Hrows & _) | (req' & todo & _ & -> & -> & _)];
      cbn; [left; exact Hrows|].
    right. eexists. split; [reflexivity|]. split; reflexivity.
Qed.

(** *** Identifiers *)

Lemma well_formed_ids (db : gorm.DB) :
  well_formed db <->
  NoDup (ids db) /\ Forall (fun i => i < gorm.next_id db) (ids db).
Proof.
  unfold well_formed, ids. rewrite List.Forall_map. reflexivity.
Qed.

Lemma well_formed_fresh (db : gorm.DB) :
  well_formed db ->
  existsb (fun r => Todo.ID r =? gorm.next_id db) (gorm.todos db) = false.
Proof.
  intros [_ Hlt]. destruct (existsb _ _) eqn:Hex; [|reflexivity].
  apply existsb_exists in Hex as (r & Hin & Heq). apply N.eqb_eq in Heq.
  pose proof (proj1 (List.Forall_forall _ _) Hlt r Hin) as Hr. cbn in Hr. lia.
Qed.

(** On a table whose identifiers are unique and all below the sequence
    value, every mutating operation leaves a table of that kind, whatever it
    returns; and [CreateTodo] is then never refused for a taken identifier:
    the store takes the insert as soon as it takes writes. *)
Theorem well_formed_preserved (db : gorm.DB) :
  well_formed db ->
  (forall req, well_formed (snd (fst (CreateTodo req db)))) /\
  (forall id req, well_formed (fst (UpdateTodo id req db))) /\
  (forall id, well_formed (fst (DeleteTodo id db))) /\
  (gorm.write_fault db = false -> accepts_insert db).
Proof.
  intros Hwf. split; [|split; [|split]].
  - intros req.
    destruct (CreateTodo_outcome req db)
      as [(req' & db' & e' & -> & Hrows & Hnext & _)
         | (req' & todo & _ & -> & Htodo & _)]; cbn.
    + apply well_formed_ids. apply well_formed_ids in Hwf as [Hnd Hlt].
      unfold ids in *. rewrite Hrows. split; [exact Hnd|].
      eapply Forall_impl; [exact Hlt|]. intros i Hi. cbn in Hi. lia.
    + apply well_formed_ids. apply well_formed_ids in Hwf as [Hnd Hlt].
      unfold ids in *. cbn. rewrite map_app. cbn.
      assert (Todo.ID todo = gorm.next_id db) as -> by now subst todo.
      split.
      * apply NoDup_app. split; [exact Hnd|]. split; [|apply NoDup_singleton].
        intros i Hi Hi'. apply list_elem_of_singleton in Hi'. subst i.
        apply list_elem_of_In in Hi.
        pose proof (proj1 (List.Forall_forall _ _) Hlt _ Hi) as Hlt'.
        cbn in Hlt'. lia.
      * apply Forall_app. split.
        -- eapply Forall_impl; [exact Hlt|]. intros i Hi. cbn in Hi. lia.
        -- constructor; [lia | constructor].
  - intros id req. apply well_formed_ids. apply well_formed_ids in Hwf.
    destruct (rows_stay id req (buy_milk EmptyString) db) as (-> & -> & _).
    exact Hwf.
  - intros id. apply well_formed_ids. apply well_formed_ids in Hwf.
    destruct (rows_stay id TodoUpdateRequest.empty (buy_milk EmptyString) db)
      as (_ & _ & -> & -> & _).
    exact Hwf.
  - intros Hw. split; [exact Hw | now apply well_formed_fresh].
Qed.

Lemma sample_db_well_formed : well_formed sample_db.
Proof.
  split.
  - apply (bool_decide_unpack _). vm_compute. exact I.
  - repeat (constructor; [reflexivity|]). constructor.
Defined.

Lemma well_formed_preserved_witness :
  well_formed (snd (fst (CreateTodo (buy_milk "high") sample_db))) /\
  well_formed (fst (UpdateTodo 1 TodoUpdateRequest.empty sample_db)) /\
  well_formed (fst (DeleteTodo 1 sample_db)) /\
  accepts_insert sample_db.
Proof.
  destruct (well_formed_preserved sample_db sample_db_well_formed)
    as (Hc & Hu & Hd & Ha).
  split; [apply Hc|]. split; [apply Hu|]. split; [apply Hd|].
  apply Ha. reflexivity.
Defined.

(** *** Reading back what was written *)

Lemma find_appended (id : N) (row : Todo.t) (l : list Todo.t) :
  existsb (fun r => Todo.ID r =? id) l = false ->
  List.find (gorm.live_with_id id) (l ++ [row])
  = if gorm.live_with_id id row then Some row else None.
Proof.
  induction l as [|x l IH]; cbn; [reflexivity|].
  intros Hex. apply orb_false_iff in Hex as [Hx Hl].
  unfold gorm.live_with_id at 1. rewrite Hx, andb_false_r. now apply IH.
Qed.

Lemma find_appended_other (id : N) (row : Todo.t) (l : list Todo.t) :
  Todo.ID row <> id ->
  List.find (gorm.live_with_id id) (l ++ [row]) = List.find (gorm.live_with_id id) l.
Proof.
  intros Hne. induction l as [|x l IH]; cbn.
  - unfold gorm.live_with_id. apply N.eqb_neq in Hne. now rewrite Hne, andb_false_r.
  - destruct (gorm.live_with_id id x); [reflexivity | exact IH].
Qed.

(** The entity a successful [CreateTodo] returns is what [GetTodoByID]
    returns for its identifier afterwards, and fetching any other identifier
    gives what it gave before. *)
Theorem created_todo_is_fetched (req req' : TodoCreateRequest.t)
    (db db' : gorm.DB) (todo : Todo.t) :
  CreateTodo req db = (req', db', Ok todo) ->
  (gorm.read_fault db = false -> GetTodoByID (Todo.ID todo) db' = Ok todo) /\
  (forall id, id <> Todo.ID todo -> GetTodoByID id db' = GetTodoByID id db).
Proof.
  intros Hc.
  destruct (CreateTodo_outcome req db)
    as [(r1 & d1 & e1 & He & _) | (r1 & t1 & [_ Hfresh] & He & Ht & _)];
    rewrite He in Hc; [discriminate|].
  injection Hc as <- <- <-. split.
  - intros Hread. rewrite GetTodoByID_unfold. cbn. rewrite Hread.
    assert (Todo.ID t1 = gorm.next_id db) as -> by now subst t1.
    rewrite (find_appended _ _ _ Hfresh).
    assert (gorm.live_with_id (gorm.next_id db) t1 = true) as ->; [|reflexivity].
    apply live_with_id_true. now subst t1.
  - intros id Hne. rewrite !GetTodoByID_unfold. cbn.
    rewrite find_appended_other; [reflexivity | congruence].
Qed.

Lemma created_todo_is_fetched_witness :
  exists todo db',
    snd (CreateTodo (buy_milk "high") sample_db) = Ok todo /\
    GetTodoByID (Todo.ID todo) db' = Ok todo /\
    GetTodoByID 1 db' = GetTodoByID 1 sample_db.
Proof.
  destruct (created_todo_is_fetched (buy_milk "high") _ sample_db _ _ eq_refl)
    as [Hget Hother].
  eexists _, _. split; [reflexivity|]. split; [apply Hget; reflexivity|].
  apply Hother. discriminate.
Defined.

Lemma find_map_other (id : N) (f : Todo.t -> Todo.t) (l : list Todo.t) :
  (forall r, gorm.live_with_id id (f r) = gorm.live_with_id id r) ->
  (forall r, gorm.live_with_id id r = true -> f r = r) ->
  List.find (gorm.live_with_id id) (map f l) = List.find (gorm.live_with_id id) l.
Proof.
  intros Hsame Hfix. induction l as [|x l IH]; cbn; [reflexivity|].
  rewrite Hsame. destruct (gorm.live_with_id id x) eqn:Hx; [|exact IH].
  now rewrite (Hfix x Hx).
Qed.

(** Updating or deleting one identifier changes nothing for another:
    [GetTodoByID] on any other identifier returns afterwards what it
    returned before, whatever the call itself returned. *)
Theorem other_identifiers_untouched (id id' : N) (req : TodoUpdateRequest.t)
    (db : gorm.DB) :
  id' <> id ->
  GetTodoByID id' (fst (UpdateTodo id req db)) = GetTodoByID id' db /\
  GetTodoByID id' (fst (DeleteTodo id db)) = GetTodoByID id' db.
Proof.
  intros Hne. split.
  - destruct (UpdateTodo_outcome id req db)
      as [[e ->] | (old & Hget & _ & _ & ->)]; [reflexivity|].
    rewrite !GetTodoByID_unfold. cbn.
    apply GetTodoByID_Ok in Hget as (_ & _ & _ & Hid).
    rewrite find_map_other; [reflexivity| |].
    + intros r. destruct (gorm.live_with_id id r) eqn:Hr; [|reflexivity].
      apply live_with_id_true in Hr as [_ Hr].
      unfold gorm.live_with_id. cbn.
      assert ((Todo.ID old =? id') = false) as -> by (apply N.eqb_neq; congruence).
      assert ((Todo.ID r =? id') = false) as -> by (apply N.eqb_neq; congruence).
      now rewrite !andb_false_r.
    + intros r Hr. apply live_with_id_true in Hr as [_ Hr].
      destruct (gorm.live_with_id id r) eqn:Hr'; [|reflexivity].
      apply live_with_id_true in Hr' as [_ Hr']. congruence.
  - destruct (DeleteTodo_outcome id db) as [(e & -> & _) | (old & _ & _ & ->)];
      [reflexivity|].
    rewrite !GetTodoByID_unfold. cbn.
    rewrite find_map_other; [reflexivity| |].
    + intros r. destruct (gorm.live_with_id id r) eqn:Hr; [|reflexivity].
      apply live_with_id_true in Hr as [_ Hr].
      unfold gorm.live_with_id. cbn.
      assert ((Todo.ID r =? id') = false) as -> by (apply N.eqb_neq; congruence).
      now rewrite !andb_false_r.
    + intros r Hr. apply live_with_id_true in Hr as [_ Hr].
      destruct (gorm.live_with_id id r) eqn:Hr'; [|reflexivity].
      apply live_with_id_true in Hr' as [_ Hr']. congruence.
Qed.

Lemma other_identifiers_untouched_witness :
  GetTodoByID 2 (fst (UpdateTodo 1 TodoUpdateRequest.empty sample_db))
    = GetTodoByID 2 sample_db /\
  GetTodoByID 2 (fst (DeleteTodo 1 sample_db)) = GetTodoByID 2 sample_db.
Proof.
  apply (other_identifiers_untouched 1 2 TodoUpdateRequest.empty sample_db).
  discriminate.
Defined.

(** *** Listings after a change *)





Lemma Find_contains (where_ : Todo.t -> bool) (order : Todo.t -> Todo.t -> bool)
    (db : gorm.DB) (r : Todo.t) :
  gorm.read_fault db = false ->
  In r (gorm.todos db) -> gorm.live r = true -> where_ r = true ->
  In r (snd (gorm.Find where_ order db)).
Proof.
  intros Hread Hin Hlive Hw. unfold gorm.Find. rewrite Hread. cbn.
  apply list_elem_of_In. rewrite merge_sort_Permutation.
  apply list_elem_of_filter. split; [|now apply list_elem_of_In].
  now rewrite Hlive, Hw.
Qed.

Lemma restamped_rows (id : N) (row : Todo.t) (l : list Todo.t) (r : Todo.t) :
  In r (map (fun x => if gorm.live_with_id id x then row else x) l) ->
  r = row \/ (In r l /\ gorm.live_with_id id r = false).
Proof.
  intros Hin. apply in_map_iff in Hin as (x & <- & Hx).
  destruct (gorm.live_with_id id x) eqn:Hhit; [left; reflexivity|].
  right. split; [exact Hx | exact Hhit].
Qed.

(** A successful update that sets the completed flag moves the entity to
    the listing of that flag: set to true, the returned entity is in
    [GetCompletedTodos] and no row of its identifier is in
    [GetPendingTodos]; set to false, the other way round. *)
Theorem completed_flag_moves_between_listings (id : N)
    (req : TodoUpdateRequest.t) (db db' : gorm.DB) (new : Todo.t) (flag : bool) :
  UpdateTodo id req db = (db', Ok new) ->
  TodoUpdateRequest.Completed req = Some flag ->
  let here := if flag then GetCompletedTodos db' else GetPendingTodos db' in
  let there := if flag then GetPendingTodos db' else GetCompletedTodos db' in
  (exists l, here = Ok l /\ In new l) /\
  (exists l, there = Ok l /\ Forall (fun r => Todo.ID r <> id) l).
Proof.
  intros Hupd Hflag.
  destruct (UpdateTodo_outcome id req db) as [[e He] | (old & Hget & _ & _ & He)];
    rewrite He in Hupd; [discriminate|].
  injection Hupd as <- <-.
  set (new := Todo.with_UpdatedAt (gorm.now db) (merged req old)).
  set (db' := gorm.with_todos _ db).
  apply GetTodoByID_Ok in Hget as (Hread & Hin & Hlive & Hid).
  assert (gorm.read_fault db' = false) as Hread' by exact Hread.
  assert (gorm.live_with_id id old = true) as Hhit
    by (apply live_with_id_true; tauto).
  assert (In new (gorm.todos db')) as Hnew.
  { cbn. apply in_map_iff. exists old. now rewrite Hhit. }
  assert (gorm.live new = true) as Hlnew.
  { apply live_None. cbn. now apply live_None. }
  assert (Todo.Completed new = flag) as Hcnew by (cbn; now rewrite Hflag).
  assert (forall r, In r (gorm.todos db') -> gorm.live r = true ->
                    Todo.ID r = id -> r = new) as Honly.
  { intros r Hr Hl Hi. cbn in Hr. apply restamped_rows in Hr as [-> | [_ Hmiss]];
      [reflexivity|].
    assert (gorm.live_with_id id r = true) by (apply live_with_id_true; tauto).
    congruence. }
  destruct (Find_answers (fun r => Bool.eqb (Todo.Completed r) true)
              gorm.updated_at_DESC db' Hread') as [n Hfc].
  destruct (Find_answers (fun r => Bool.eqb (Todo.Completed r) false)
              gorm.priority_DESC_created_at_DESC db' Hread') as [m Hfp].
  assert (exists cs, GetCompletedTodos db' = Ok cs /\
            cs = snd (gorm.Find (fun r => Bool.eqb (Todo.Completed r) true)
                                gorm.updated_at_DESC db')) as (cs & Hcs & Ecs).
  { unfold GetCompletedTodos. rewrite Hfc. cbn. eauto. }
  assert (exists ps, GetPendingTodos db' = Ok ps /\
            ps = snd (gorm.Find (fun r => Bool.eqb (Todo.Completed r) false)
                                gorm.priority_DESC_created_at_DESC db'))
    as (ps & Hps & Eps).
  { unfold GetPendingTodos. rewrite Hfp. cbn. eauto. }
  cbn zeta. destruct flag.
  - split.
    + exists cs. split; [exact Hcs|]. rewrite Ecs.
      apply Find_contains; try assumption. now rewrite Hcnew.
    + exists ps. split; [exact Hps|]. apply List.Forall_forall.
      intros r Hr Hi. rewrite Eps in Hr.
      apply Find_where_holds in Hr as (Hw & Hl & Hr).
      rewrite (Honly r Hr Hl Hi), Hcnew in Hw. discriminate.
  - split.
    + exists ps. split; [exact Hps|]. rewrite Eps.
      apply Find_contains; try assumption. now rewrite Hcnew.
    + exists cs. split; [exact Hcs|]. apply List.Forall_forall.
      intros r Hr Hi. rewrite Ecs in Hr.
      apply Find_where_holds in Hr as (Hw & Hl & Hr).
      rewrite (Honly r Hr Hl Hi), Hcnew in Hw. discriminate.
Qed.

Lemma completed_flag_moves_between_listings_witness :
  exists db' new,
    UpdateTodo 1 (TodoUpdateRequest.mk None None (Some true) None None) sample_db
      = (db', Ok new) /\
    (exists l, GetCompletedTodos db' = Ok l /\ In new l) /\
    (exists l, GetPendingTodos db' = Ok l /\ Forall (fun r => Todo.ID r <> 1) l).
Proof.
  eexists _, _. split; [reflexivity|].
  apply (completed_flag_moves_between_listings 1
           (TodoUpdateRequest.mk None None (Some true) None None)
           sample_db _ _ true); reflexivity.
Defined.

(** *** What an update cannot do, and what stays valid *)

(** [UpdateTodo] cannot clear a due date: when the entity had one, the
    updated entity has one too, the request's if it carries one and the old
    one otherwise. *)
Theorem UpdateTodo_keeps_a_due_date (id : N) (req : TodoUpdateRequest.t)
    (db db' : gorm.DB) (old new : Todo.t) (d : Time) :
  GetTodoByID id db = Ok old -> Todo.DueDate old = Some d ->
  UpdateTodo id req db = (db', Ok new) ->
  Todo.DueDate new = Some (default d (TodoUpdateRequest.DueDate req)).
Proof.
  intros Hget Hdue Hupd.
  destruct (UpdateTodo_outcome id req db) as [[e He] | (old' & Hget' & _ & _ & He)];
    rewrite He in Hupd; [discriminate|].
  injection Hupd as <- <-. rewrite Hget in Hget'. injection Hget' as <-.
  cbn. rewrite Hdue. now destruct (TodoUpdateRequest.DueDate req).
Qed.

Lemma UpdateTodo_keeps_a_due_date_witness :
  exists db' new,
    UpdateTodo 3 TodoUpdateRequest.empty sample_db = (db', Ok new) /\
    Todo.DueDate new = Some 30.
Proof.
  eexists _, _. split; [reflexivity|].
  eapply (UpdateTodo_keeps_a_due_date 3 TodoUpdateRequest.empty sample_db _
            row_done _ 30); reflexivity.
Defined.

(** When every stored priority is a member of the enumeration, it stays so
    under every mutating operation, whatever the request and the result. *)
Theorem priorities_stay_valid (db : gorm.DB) :
  priorities_valid db ->
  (forall req, priorities_valid (snd (fst (CreateTodo req db)))) /\
  (forall id req, priorities_valid (fst (UpdateTodo id req db))) /\
  (forall id, priorities_valid (fst (DeleteTodo id db))).
Proof.
  unfold priorities_valid. intros Hv. split; [|split].
  - intros req.
    destruct (CreateTodo_outcome req db)
      as [(req' & db' & e' & -> & Hrows & _) | (req' & todo & _ & -> & -> & Hp)];
      cbn; [now rewrite Hrows|].
    apply Forall_app. split; [exact Hv|]. constructor; [exact Hp | constructor].
  - intros id req.
    destruct (UpdateTodo_outcome id req db)
      as [[e ->] | (old & Hget & Hp & _ & ->)]; cbn; [exact Hv|].
    apply List.Forall_forall. intros r Hr.
    apply restamped_rows in Hr as [-> | [Hr _]].
    + cbn. destruct (TodoUpdateRequest.Priority req) as [p|]; cbn.
      * now apply Hp.
      * apply GetTodoByID_Ok in Hget as (_ & Hin & _).
        exact (proj1 (List.Forall_forall _ _) Hv old Hin).
    + exact (proj1 (List.Forall_forall _ _) Hv r Hr).
  - intros id.
    destruct (DeleteTodo_outcome id db) as [(e & -> & _) | (old & _ & _ & ->)];
      cbn; [exact Hv|].
    apply List.Forall_forall. intros r Hr.
    apply in_map_iff in Hr as (x & <- & Hx).
    pose proof (proj1 (List.Forall_forall _ _) Hv x Hx) as Hvx.
    now destruct (gorm.live_with_id id x).
Qed.

Lemma priorities_stay_valid_witness :
  priorities_valid (snd (fst (CreateTodo (buy_milk EmptyString) sample_db))) /\
  priorities_valid
    (fst (UpdateTodo 1 (TodoUpdateRequest.mk None None None (Some "low") None)
                     sample_db)) /\
  priorities_valid (fst (DeleteTodo 2 sample_db)).
Proof.
  destruct (priorities_stay_valid sample_db sample_db_priorities_valid)
    as (Hc & Hu & Hd).
  split; [apply Hc|]. split; [apply Hu | apply Hd].
Defined.

(** ** Properties of the connection settings *)

Lemma getEnv_cases (key d : string) (env : gmap string string) :
  match env !! key with
  | Some v => if String.eqb v EmptyString
              then database.getEnv key d env = d
              else database.getEnv key d env = v
  | None => database.getEnv key d env = d
  end.
Proof.
  unfold database.getEnv, database.Getenv.
  destruct (env !! key) as [v|]; cbn; [|reflexivity].
  now destruct (String.eqb v EmptyString).
Qed.

Lemma getEnv_nonempty (key d : string) (env : gmap string string) :
  d <> EmptyString -> database.getEnv key d env <> EmptyString.
Proof.
  intros Hd. pose proof (getEnv_cases key d env) as Hc.
  destruct (env !! key) as [v|]; [|congruence].
  destruct (String.eqb_spec v EmptyString); congruence.
Qed.

Lemma getEnv_empty_value (key key' d : string) (env : gmap string string) :
  database.getEnv key' d (<[key := EmptyString]> env)
  = database.getEnv key' d (delete key env).
Proof.
  unfold database.getEnv, database.Getenv.
  destruct (decide (key = key')) as [->|Hne].
  - now rewrite lookup_insert_eq, lookup_delete_eq.
  - now rewrite lookup_insert_ne, lookup_delete_ne.
Qed.

(** Whatever the environment, no field of [GetDefaultConfig] is empty; and
    a variable set to the empty string gives the configuration the unset
    variable gives, so no setting can be made empty through the
    environment. *)
Theorem GetDefaultConfig_never_empty (env : gmap string string) (key : string) :
  let c := database.GetDefaultConfig env in
  (database.Host c <> EmptyString /\ database.Port c <> EmptyString /\
   database.User c <> EmptyString /\ database.Password c <> EmptyString /\
   database.DBName c <> EmptyString /\ database.SSLMode c <> EmptyString) /\
  database.GetDefaultConfig (<[key := EmptyString]> env)
  = database.GetDefaultConfig (delete key env).
Proof.
  cbn zeta. split.
  - unfold database.GetDefaultConfig; cbn.
    repeat split; apply getEnv_nonempty; discriminate.
  - unfold database.GetDefaultConfig. now rewrite !getEnv_empty_value.
Qed.

(** ** Properties of the Huma handlers *)

(** *** Texts of identifiers *)

Lemma NilEmpty_all_digits (u : Decimal.uint) :
  all_digits (NilEmpty.string_of_uint u) = true.
Proof. induction u; cbn [NilEmpty.string_of_uint all_digits]; auto. Qed.

Lemma to_uint_not_Nil (n : N) : N.to_uint n <> Decimal.Nil.
Proof.
  intros H. pose proof (DecimalN.Unsigned.of_to n) as Hn. rewrite H in Hn.
  cbn in Hn. subst n. discriminate H.
Qed.

Lemma fmt_d_all_digits (n : N) : all_digits (fmt.d n) = true.
Proof.
  unfold fmt.d, NilZero.string_of_uint.
  destruct (N.to_uint n) eqn:Hu; try apply NilEmpty_all_digits. reflexivity.
Qed.

Lemma fmt_d_starts_with_digit (n : N) :
  exists c s, fmt.d n = String c s /\ is_digit c = true.
Proof.
  pose proof (fmt_d_all_digits n) as Hd. pose proof (to_uint_not_Nil n) as Hn.
  unfold fmt.d, NilZero.string_of_uint in *.
  destruct (N.to_uint n); try contradiction;
    cbn [NilEmpty.string_of_uint all_digits] in *;
    apply andb_true_iff in Hd as [Hc _]; eauto.
Qed.

Lemma fmt_d_inj (a b : N) : fmt.d a = fmt.d b -> a = b.
Proof.
  unfold fmt.d. intros H. apply DecimalN.Unsigned.to_uint_inj.
  pose proof (NilZero.usu (N.to_uint a) (to_uint_not_Nil a)) as Ha.
  pose proof (NilZero.usu (N.to_uint b) (to_uint_not_Nil b)) as Hb.
  rewrite H in Ha. congruence.
Qed.

(** Two texts that run through digits up to a space agree on the digits
    and on what follows the space. *)
Lemma digits_then_space (s1 s2 r1 r2 : string) :
  all_digits s1 = true -> all_digits s2 = true ->
  s1 ++ String " " r1 = s2 ++ String " " r2 -> s1 = s2 /\ r1 = r2.
Proof.
  revert s2. induction s1 as [|c s1 IH]; intros [|c2 s2] H1 H2 Heq; cbn in *.
  - injection Heq as ->. now split.
  - injection Heq as <- _. discriminate H2.
  - injection Heq as -> _. discriminate H1.
  - injection Heq as -> Heq.
    apply andb_true_iff in H1 as [_ H1]. apply andb_true_iff in H2 as [_ H2].
    destruct (IH s2 H1 H2 Heq) as [-> ->]. now split.
Qed.

Lemma fmt_d_int_nonneg (z : Z) : (0 <= z)%Z -> fmt.d_int z = fmt.d (Z.to_N z).
Proof.
  intros Hz. unfold fmt.d_int.
  destruct (Z.ltb_spec z 0); [lia | reflexivity].
Qed.

Lemma uint_of_int_nonneg (z : Z) :
  (0 <= z < 2 ^ 63)%Z -> handler.uint_of_int z = Z.to_N z.
Proof.
  intros Hz. unfold handler.uint_of_int. rewrite Z.mod_small; [reflexivity|].
  lia.
Qed.

(** The comparison the handlers make, for an identifier that is not
    negative: the text of a service error is the not-found text of the
    request's identifier exactly when the error is the not-found error for
    that identifier. *)
Lemma Error_text_is_not_found (statement_text : string) (e : service.Error)
    (z : Z) :
  (0 <= z)%Z ->
  String.eqb (handler.Error_text statement_text e) (handler.not_found_text z)
  = true <-> e = NotFoundError (Z.to_N z).
Proof.
  intros Hz. rewrite String.eqb_eq. unfold handler.not_found_text.
  rewrite (fmt_d_int_nonneg z Hz). split; [|intros ->; reflexivity].
  destruct e as [p | id | id | op c]; cbn [handler.Error_text].
  - cbn. discriminate.
  - intros H. apply (String.app_inj "ID ") in H.
    apply digits_then_space in H as [H _]; try apply fmt_d_all_digits.
    now apply fmt_d_inj in H as ->.
  - intros H. apply (String.app_inj "ID ") in H.
    apply digits_then_space in H as [_ H]; try apply fmt_d_all_digits.
    discriminate H.
  - destruct op; cbn; discriminate.
Qed.

(** For a negative identifier no service error has the not-found text the
    handler builds: that text has a minus sign where every error text has a
    digit or another letter. *)
Lemma Error_text_negative (statement_text : string) (e : service.Error) (z : Z) :
  (z < 0)%Z ->
  String.eqb (handler.Error_text statement_text e) (handler.not_found_text z)
  = false.
Proof.
  intros Hz. apply String.eqb_neq. unfold handler.not_found_text, fmt.d_int.
  destruct (Z.ltb_spec z 0) as [_|Hge]; [|lia].
  destruct e as [p | id | id | op c]; cbn [handler.Error_text].
  - cbn. discriminate.
  - intros Heq. apply (String.app_inj "ID ") in Heq.
    destruct (fmt_d_starts_with_digit id) as (c & s & Hd & Hc).
    rewrite Hd in Heq. cbn in Heq. injection Heq as -> _. discriminate Hc.
  - intros Heq. apply (String.app_inj "ID ") in Heq.
    destruct (fmt_d_starts_with_digit id) as (c & s & Hd & Hc).
    rewrite Hd in Heq. cbn in Heq. injection Heq as -> _. discriminate Hc.
  - destruct op; cbn; discriminate.
Qed.

(** *** Status codes *)

Lemma huma_GetTodoByID_unfold (statement_text : string)
    (input : handler.TodoIDRequest) (db : gorm.DB) :
  (0 <= handler.path_ID input < 2 ^ 63)%Z ->
  handler.HumaTodoHandler.GetTodoByID statement_text input db =
  match GetTodoByID (Z.to_N (handler.path_ID input)) db with
  | Ok todo =>
    handler.Response (handler.mkOne (ToResponse todo) "Todoを取得しました")
  | Err (NotFoundError id) =>
    handler.Failure (handler.Error404NotFound
                       (handler.not_found_text (handler.path_ID input)))
  | Err e =>
    handler.Failure (handler.Error500InternalServerError
                       (handler.Error_text statement_text e))
  end.
Proof.
  intros Hid. unfold handler.HumaTodoHandler.GetTodoByID. rewrite (uint_of_int_nonneg _ Hid).
  destruct (GetTodoByID _ db) as [todo|e] eqn:Hget; [reflexivity|].
  destruct (String.eqb _ _) eqn:Htext.
  - apply Error_text_is_not_found in Htext; [|lia]. subst e.
    unfold handler.not_found_text. rewrite fmt_d_int_nonneg by lia. reflexivity.
  - destruct e as [p | id | id | op c]; try reflexivity.
    rewrite GetTodoByID_unfold in Hget.
    destruct (gorm.read_fault db); [discriminate|].
    destruct (List.find _ _); [discriminate|]. injection Hget as <-.
    assert (String.eqb
              (handler.Error_text statement_text
                 (NotFoundError (Z.to_N (handler.path_ID input))))
              (handler.not_found_text (handler.path_ID input)) = true) as Ht
      by (apply Error_text_is_not_found; [lia | reflexivity]).
    congruence.
Qed.

Lemma GetTodoByID_fetches_live (id : N) (db : gorm.DB) :
  gorm.read_fault db = false -> live_entity id db ->
  exists r, GetTodoByID id db = Ok r /\ In r (gorm.todos db) /\
            Todo.DeletedAt r = None /\ Todo.ID r = id.
Proof.
  intros Hread Hlive. destruct (GetTodoByID_live id db Hread Hlive) as [r Hget].
  exists r. split; [exact Hget|].
  apply GetTodoByID_Ok in Hget as (_ & Hin & Hl & Hid).
  apply live_None in Hl. tauto.
Qed.

(** The Huma [GetTodoByID] for an identifier that is not negative: a live
    row is answered with its response form, a missing or soft-deleted one
    with status 404 and the not-found text, a failing store with status 500.
    For a negative identifier a failure is never a 404. *)
Theorem huma_GetTodoByID_status (statement_text : string)
    (input : handler.TodoIDRequest) (db : gorm.DB) :
  (- 2 ^ 63 <= handler.path_ID input < 2 ^ 63)%Z ->
  let id := handler.path_ID input in
  let reply := handler.HumaTodoHandler.GetTodoByID statement_text input db in
  ((0 <= id)%Z -> gorm.read_fault db = false -> live_entity (Z.to_N id) db ->
     exists todo,
       reply = handler.Response
                 (handler.mkOne (ToResponse todo) "Todoを取得しました") /\
       In todo (gorm.todos db) /\ Todo.DeletedAt todo = None /\
       Todo.ID todo = Z.to_N id) /\
  ((0 <= id)%Z -> gorm.read_fault db = false -> ~ live_entity (Z.to_N id) db ->
     reply = handler.Failure (handler.mkStatus 404 (handler.not_found_text id))) /\
  ((0 <= id)%Z -> gorm.read_fault db = true ->
     exists text, reply = handler.Failure (handler.mkStatus 500 text)) /\
  ((id < 0)%Z -> forall e, reply = handler.Failure e -> handler.Status e = 500).
Proof.
  intros Hrange id reply. subst id reply.
  split; [|split; [|split]].
  - intros Hid Hread Hlive.
    rewrite huma_GetTodoByID_unfold by lia.
    destruct (GetTodoByID_fetches_live _ db Hread Hlive)
      as (todo & -> & Hin & Hdel & Hi).
    exists todo. repeat split; assumption.
  - intros Hid Hread Hnone.
    rewrite huma_GetTodoByID_unfold by lia.
    now rewrite (GetTodoByID_missing _ db Hread Hnone).
  - intros Hid Hread.
    rewrite huma_GetTodoByID_unfold by lia.
    rewrite GetTodoByID_unfold, Hread. eexists. reflexivity.
  - intros Hneg e. unfold handler.HumaTodoHandler.GetTodoByID.
    destruct (GetTodoByID _ db) as [todo|err]; [discriminate|].
    rewrite (Error_text_negative statement_text err _ Hneg).
    now intros [= <-].
Qed.

Lemma huma_GetTodoByID_status_witness :
  (exists todo,
     handler.HumaTodoHandler.GetTodoByID "connection refused" (handler.mkID 1) sample_db
       = handler.Response (handler.mkOne (ToResponse todo) "Todoを取得しました") /\
     In todo (gorm.todos sample_db) /\ Todo.DeletedAt todo = None /\
     Todo.ID todo = 1) /\
  handler.HumaTodoHandler.GetTodoByID "connection refused" (handler.mkID 4) sample_db
    = handler.Failure (handler.mkStatus 404 (handler.not_found_text 4)) /\
  (forall e,
     handler.HumaTodoHandler.GetTodoByID "connection refused" (handler.mkID (-1)) sample_db
       = handler.Failure e -> handler.Status e = 500).
Proof.
  split; [|split].
  - apply (huma_GetTodoByID_status "connection refused" (handler.mkID 1) sample_db);
      [cbn; lia | cbn; lia | reflexivity | exact sample_db_live_1].
  - apply (huma_GetTodoByID_status "connection refused" (handler.mkID 4) sample_db);
      [cbn; lia | cbn; lia | reflexivity | exact sample_db_no_live_4].
  - apply (huma_GetTodoByID_status "connection refused" (handler.mkID (-1))
             sample_db); cbn; lia.
Defined.

Lemma not_found_text_of_N (z : Z) :
  (0 <= z)%Z ->
  handler.not_found_text z
  = "ID " ++ fmt.d (Z.to_N z) ++ " のTodoが見つかりません".
Proof.
  intros Hz. unfold handler.not_found_text. now rewrite fmt_d_int_nonneg.
Qed.

Lemma not_found_test_true (statement_text : string) (z : Z) :
  (0 <= z)%Z ->
  String.eqb (handler.Error_text statement_text (NotFoundError (Z.to_N z)))
             (handler.not_found_text z) = true.
Proof. intros Hz. now apply Error_text_is_not_found. Qed.

Lemma not_found_test_false (statement_text : string) (e : service.Error) (z : Z) :
  (0 <= z)%Z -> e <> NotFoundError (Z.to_N z) ->
  String.eqb (handler.Error_text statement_text e) (handler.not_found_text z)
  = false.
Proof.
  intros Hz Hne. destruct (String.eqb _ _) eqn:Ht; [|reflexivity].
  apply Error_text_is_not_found in Ht; [contradiction | exact Hz].
Qed.

(** The Huma [UpdateTodo] for an identifier that is not negative, case by
    case: status 404 with the not-found text for a missing or soft-deleted
    row; status 400 naming the value for a priority outside the
    enumeration; status 400 as well when the store fails, on the read or on
    the write; the store is left as it was in each of these. Otherwise the
    response carries the entity the service returned. *)
Theorem huma_UpdateTodo_status (statement_text : string)
    (input : handler.TodoUpdateRequest) (db : gorm.DB) :
  (0 <= handler.update_ID input < 2 ^ 63)%Z ->
  let id := Z.to_N (handler.update_ID input) in
  let body := handler.update_Body input in
  let reply := handler.HumaTodoHandler.UpdateTodo statement_text input db in
  (gorm.read_fault db = false -> ~ live_entity id db ->
     reply = (db, handler.Failure
                    (handler.mkStatus 404
                       (handler.not_found_text (handler.update_ID input))))) /\
  (forall p, gorm.read_fault db = false -> live_entity id db ->
     TodoUpdateRequest.Priority body = Some p -> IsValid p = false ->
     reply = (db, handler.Failure
                    (handler.mkStatus 400 ("無効な優先度です: " ++ p)))) /\
  (gorm.read_fault db = true ->
     exists text, reply = (db, handler.Failure (handler.mkStatus 400 text))) /\
  (gorm.read_fault db = false -> live_entity id db ->
   (forall p, TodoUpdateRequest.Priority body = Some p -> IsValid p = true) ->
   gorm.write_fault db = true ->
     exists text, reply = (db, handler.Failure (handler.mkStatus 400 text))) /\
  (gorm.read_fault db = false -> live_entity id db ->
   (forall p, TodoUpdateRequest.Priority body = Some p -> IsValid p = true) ->
   gorm.write_fault db = false ->
     exists db' new,
       UpdateTodo id body db = (db', Ok new) /\
       reply = (db', handler.Response
                       (handler.mkOne (ToResponse new) "Todoを更新しました"))).
Proof.
  intros Hid id body reply. subst id body reply.
  unfold handler.HumaTodoHandler.UpdateTodo. rewrite (uint_of_int_nonneg _ Hid).
  assert (0 <= handler.update_ID input)%Z as Hz by lia.
  split; [|split; [|split; [|split]]].
  - intros Hread Hnone. unfold UpdateTodo.
    rewrite (GetTodoByID_missing _ db Hread Hnone).
    now rewrite not_found_test_true, not_found_text_of_N.
  - intros p Hread Hlive Hp Hbad.
    destruct (GetTodoByID_live _ db Hread Hlive) as [old Hget].
    rewrite (UpdateTodo_fetched _ _ _ _ Hget), (apply_update_rejects _ _ _ Hp Hbad).
    now rewrite not_found_test_false.
  - intros Hread. unfold UpdateTodo. rewrite GetTodoByID_unfold, Hread.
    rewrite not_found_test_false by (exact Hz || discriminate). eauto.
  - intros Hread Hlive Hp Hwrite.
    destruct (GetTodoByID_live _ db Hread Hlive) as [old Hget].
    rewrite (UpdateTodo_fetched _ _ _ _ Hget), (apply_update_merges _ _ Hp), Hwrite.
    rewrite not_found_test_false by (exact Hz || discriminate). eauto.
  - intros Hread Hlive Hp Hwrite.
    destruct (GetTodoByID_live _ db Hread Hlive) as [old Hget].
    rewrite (UpdateTodo_fetched _ _ _ _ Hget), (apply_update_merges _ _ Hp), Hwrite.
    eauto.
Qed.

Lemma huma_UpdateTodo_status_witness :
  handler.HumaTodoHandler.UpdateTodo "connection refused"
    (handler.mkUpdate 4 TodoUpdateRequest.empty) sample_db
    = (sample_db,
       handler.Failure (handler.mkStatus 404 (handler.not_found_text 4))) /\
  handler.HumaTodoHandler.UpdateTodo "connection refused"
    (handler.mkUpdate 1 (TodoUpdateRequest.mk None None None (Some "invalid") None))
    sample_db
    = (sample_db,
       handler.Failure (handler.mkStatus 400 ("無効な優先度です: " ++ "invalid"))) /\
  (exists text,
     handler.HumaTodoHandler.UpdateTodo "connection refused"
       (handler.mkUpdate 1 TodoUpdateRequest.empty)
       (gorm.mkDB [row_high] 2 10 false true)
     = (gorm.mkDB [row_high] 2 10 false true,
        handler.Failure (handler.mkStatus 400 text))).
Proof.
  split; [|split].
  - apply (huma_UpdateTodo_status "connection refused"
             (handler.mkUpdate 4 TodoUpdateRequest.empty) sample_db);
      [cbn; lia | reflexivity | exact sample_db_no_live_4].
  - apply (huma_UpdateTodo_status "connection refused"
             (handler.mkUpdate 1
                (TodoUpdateRequest.mk None None None (Some "invalid") None))
             sample_db);
      [cbn; lia | reflexivity | exact sample_db_live_1 | reflexivity | reflexivity].
  - apply (huma_UpdateTodo_status "connection refused"
             (handler.mkUpdate 1 TodoUpdateRequest.empty)
             (gorm.mkDB [row_high] 2 10 false true));
      [cbn; lia | reflexivity | | discriminate | reflexivity].
    exists row_high. split; [left; reflexivity|]. split; reflexivity.
Defined.

Lemma DeleteTodo_then_not_found (id : N) (db : gorm.DB) (later : Time) :
  live_entity id db -> gorm.read_fault db = false -> gorm.write_fault db = false ->
  exists db1,
    DeleteTodo id db = (db1, Ok tt) /\
    DeleteTodo id (gorm.at_time later db1)
      = (gorm.at_time later db1, Err (NotFoundError id)).
Proof.
  intros Hlive Hread Hwrite.
  destruct (GetTodoByID_live id db Hread Hlive) as [old Hget].
  rewrite (DeleteTodo_fetched id db old Hget Hwrite).
  eexists. split; [reflexivity|].
  unfold DeleteTodo. rewrite GetTodoByID_unfold. cbn.
  now rewrite Hread, find_after_soft_delete.
Qed.

(** The Huma [DeleteTodo] for an identifier that is not negative: status
    404 with the not-found text for a missing or soft-deleted row, status
    500 when the store fails, the store left as it was in both; otherwise
    the confirmation naming the identifier, after which the same request,
    at whatever later time, is answered with status 404. *)
Theorem huma_DeleteTodo_status (statement_text : string)
    (input : handler.TodoIDRequest) (db : gorm.DB) (later : Time) :
  (0 <= handler.path_ID input < 2 ^ 63)%Z ->
  let id := Z.to_N (handler.path_ID input) in
  let reply := handler.HumaTodoHandler.DeleteTodo statement_text input db in
  let gone :=
    handler.Failure
      (handler.mkStatus 404 (handler.not_found_text (handler.path_ID input))) in
  (gorm.read_fault db = false -> ~ live_entity id db -> reply = (db, gone)) /\
  (gorm.read_fault db = true \/
   (live_entity id db /\ gorm.write_fault db = true) ->
     exists text, reply = (db, handler.Failure (handler.mkStatus 500 text))) /\
  (gorm.read_fault db = false -> live_entity id db ->
   gorm.write_fault db = false ->
     exists db',
       reply = (db', handler.Response
                       (handler.mkDeleted
                          ("ID " ++ fmt.d_int (handler.path_ID input)
                           ++ " のTodoを削除しました"))) /\
       handler.HumaTodoHandler.DeleteTodo statement_text input (gorm.at_time later db')
       = (gorm.at_time later db', gone)).
Proof.
  intros Hid id reply gone. subst id reply gone.
  unfold handler.HumaTodoHandler.DeleteTodo. rewrite (uint_of_int_nonneg _ Hid).
  assert (0 <= handler.path_ID input)%Z as Hz by lia.
  split; [|split].
  - intros Hread Hnone. unfold DeleteTodo.
    rewrite (GetTodoByID_missing _ db Hread Hnone).
    now rewrite not_found_test_true, not_found_text_of_N.
  - intros [Hread | [Hlive Hwrite]].
    + unfold DeleteTodo. rewrite GetTodoByID_unfold, Hread.
      rewrite not_found_test_false by (exact Hz || discriminate). eauto.
    + destruct (gorm.read_fault db) eqn:Hread.
      * unfold DeleteTodo. rewrite GetTodoByID_unfold, Hread.
        rewrite not_found_test_false by (exact Hz || discriminate). eauto.
      * destruct (GetTodoByID_live _ db Hread Hlive) as [old Hget].
        unfold DeleteTodo, DeleteTodo_statement, gorm.Delete.
        rewrite Hget, Hwrite.
        cbn -[String.eqb handler.Error_text handler.not_found_text].
        rewrite not_found_test_false by (exact Hz || discriminate). eauto.
  - intros Hread Hlive Hwrite.
    destruct (DeleteTodo_then_not_found _ db later Hlive Hread Hwrite)
      as (db1 & -> & Hsecond).
    exists db1. split; [reflexivity|]. rewrite Hsecond.
    now rewrite not_found_test_true, not_found_text_of_N.
Qed.

Lemma huma_DeleteTodo_status_witness :
  handler.HumaTodoHandler.DeleteTodo "connection refused" (handler.mkID 4) sample_db
    = (sample_db,
       handler.Failure (handler.mkStatus 404 (handler.not_found_text 4))) /\
  exists db',
    handler.HumaTodoHandler.DeleteTodo "connection refused" (handler.mkID 1) sample_db
      = (db', handler.Response
                (handler.mkDeleted
                   ("ID " ++ fmt.d_int 1 ++ " のTodoを削除しました"))) /\
    handler.HumaTodoHandler.DeleteTodo "connection refused" (handler.mkID 1) (gorm.at_time 11 db')
      = (gorm.at_time 11 db',
         handler.Failure (handler.mkStatus 404 (handler.not_found_text 1))).
Proof.
  split.
  - apply (huma_DeleteTodo_status "connection refused" (handler.mkID 4)
             sample_db 11);
      [cbn; lia | reflexivity | exact sample_db_no_live_4].
  - apply (huma_DeleteTodo_status "connection refused" (handler.mkID 1)
             sample_db 11);
      [cbn; lia | reflexivity | exact sample_db_live_1 | reflexivity].
Defined.

(** The Huma [CreateTodo]: every failure is answered with status 400 and
    leaves the table as it was, a store that refuses the insert included; a
    non-empty priority outside the enumeration is named in the detail and
    leaves the input untouched. When the store takes the insert, the
    response shows the new row: numbered by the sequence, not completed,
    stamped with the clock, with the priority of the body as the service
    left it. *)
Theorem huma_CreateTodo_status (statement_text : string)
    (input : handler.TodoCreateRequest) (db : gorm.DB) :
  let body := handler.create_Body input in
  let out := handler.HumaTodoHandler.CreateTodo statement_text input db in
  (forall e, snd out = handler.Failure e ->
     handler.Status e = 400 /\ gorm.todos (snd (fst out)) = gorm.todos db) /\
  (TodoCreateRequest.Priority body <> EmptyString ->
   IsValid (TodoCreateRequest.Priority body) = false ->
     out = (input, db,
            handler.Failure
              (handler.mkStatus 400
                 ("無効な優先度です: " ++ TodoCreateRequest.Priority body)))) /\
  (~ accepts_insert db ->
     exists text, snd out = handler.Failure (handler.mkStatus 400 text)) /\
  (TodoCreateRequest.Priority body = EmptyString \/
   IsValid (TodoCreateRequest.Priority body) = true ->
   accepts_insert db ->
     exists r,
       snd out = handler.Response (handler.mkOne r "Todoを作成しました") /\
       TodoResponse.ID r = gorm.next_id db /\
       TodoResponse.Completed r = false /\
       TodoResponse.Title r = TodoCreateRequest.Title body /\
       TodoResponse.CreatedAt r = gorm.now db /\
       TodoResponse.UpdatedAt r = gorm.now db /\
       TodoResponse.Priority r
         = TodoCreateRequest.Priority (handler.create_Body (fst (fst out))) /\
       TodoResponse.Priority r
         = (if String.eqb (TodoCreateRequest.Priority body) EmptyString
            then "medium" else TodoCreateRequest.Priority body)).
Proof.
  intros body out. subst body out. unfold handler.HumaTodoHandler.CreateTodo.
  split; [|split; [|split]].
  - intros e.
    destruct (CreateTodo_outcome (handler.create_Body input) db)
      as [(req' & db' & e' & -> & Hrows & _) | (req' & todo & _ & -> & _)]; cbn.
    + intros [= <-]. split; [reflexivity | exact Hrows].
    + discriminate.
  - intros Hne Hbad. rewrite (CreateTodo_rejects _ db Hne Hbad).
    now destruct input.
  - intros Hrefuse.
    destruct (CreateTodo_outcome (handler.create_Body input) db)
      as [(req' & db' & e' & -> & _) | (req' & todo & Hacc & _)];
      [cbn; eauto | contradiction].
  - intros Hpass Hacc.
    destruct (CreateTodo_passes (handler.create_Body input) db Hpass)
      as (req' & db' & r & -> & Hreq & _ & _ & Hok).
    destruct (Hok Hacc) as [-> _]. cbn. eexists. split; [reflexivity|].
    cbn. subst req'.
    destruct (String.eqb (TodoCreateRequest.Priority (handler.create_Body input))
                         EmptyString); cbn; repeat split.
Qed.

Lemma huma_CreateTodo_status_witness :
  handler.HumaTodoHandler.CreateTodo "connection refused" (handler.mkCreate (buy_milk "invalid"))
                     sample_db
    = (handler.mkCreate (buy_milk "invalid"), sample_db,
       handler.Failure (handler.mkStatus 400 ("無効な優先度です: " ++ "invalid"))) /\
  (exists text,
     snd (handler.HumaTodoHandler.CreateTodo "connection refused"
            (handler.mkCreate (buy_milk "high"))
            (gorm.mkDB [row_high] 2 10 false true))
     = handler.Failure (handler.mkStatus 400 text)) /\
  (exists r,
     snd (handler.HumaTodoHandler.CreateTodo "connection refused"
            (handler.mkCreate (buy_milk EmptyString)) sample_db)
     = handler.Response (handler.mkOne r "Todoを作成しました") /\
     TodoResponse.ID r = 5 /\ TodoResponse.Completed r = false /\
     TodoResponse.Priority r = "medium").
Proof.
  split; [|split].
  - apply (huma_CreateTodo_status "connection refused"
             (handler.mkCreate (buy_milk "invalid")) sample_db);
      [discriminate | reflexivity].
  - apply (huma_CreateTodo_status "connection refused"
             (handler.mkCreate (buy_milk "high"))
             (gorm.mkDB [row_high] 2 10 false true)).
    intros [Hw _]. discriminate Hw.
  - destruct (proj2 (proj2 (proj2
               (huma_CreateTodo_status "connection refused"
                  (handler.mkCreate (buy_milk EmptyString)) sample_db)))
               (or_introl eq_refl) sample_db_accepts_insert)
      as (r & Hr & Hid & Hdone & _ & _ & _ & _ & Hp).
    exists r. split; [exact Hr|]. split; [exact Hid|]. split; [exact Hdone|].
    exact Hp.
Defined.

(** *** The list endpoint *)

Lemma listing_rows (where_ : Todo.t -> bool) (order : Todo.t -> Todo.t -> bool)
    (db : gorm.DB) :
  Forall (fun t => In t (gorm.todos db) /\ Todo.DeletedAt t = None)
         (snd (gorm.Find where_ order db)).
Proof.
  apply List.Forall_forall. intros t Hin.
  apply Find_where_holds in Hin as (_ & Hl & Hin).
  split; [exact Hin | now apply live_None].
Qed.

(** One listing operation, by whether its read fails. *)
Ltac find_branch :=
  match goal with
  | |- context [gorm.Find ?w ?o ?d] =>
    let Hrows := fresh "Hrows" in
    pose proof (listing_rows w o d) as Hrows;
    unfold gorm.Find in *; destruct (gorm.read_fault d); cbn in *;
    (split; [first [right; reflexivity | exact Hrows]
            | intros; first [discriminate | eauto]])
  end.

(** What the four listing operations have in common: a list is made of live
    rows of the table; an error is the validation error of
    [GetTodosByPriority] or a failed read; and a store that answers reads
    always gets a list, the priority being valid. *)
Lemma listing_shape (db : gorm.DB) (p : Priority) (listing : result (list Todo.t)) :
  listing = GetAllTodos db \/ listing = GetCompletedTodos db \/
  listing = GetPendingTodos db \/ listing = GetTodosByPriority p db ->
  match listing with
  | Ok l => Forall (fun t => In t (gorm.todos db) /\ Todo.DeletedAt t = None) l
  | Err e =>
    (listing = GetTodosByPriority p db /\ IsValid p = false /\
     e = ValidationError p) \/
    gorm.read_fault db = true
  end /\
  (gorm.read_fault db = false ->
   (listing = GetTodosByPriority p db -> IsValid p = true) ->
   exists l, listing = Ok l).
Proof.
  intros [-> | [-> | [-> | ->]]];
    unfold GetAllTodos, GetCompletedTodos, GetPendingTodos, GetTodosByPriority.
  1-3: find_branch.
  destruct (IsValid p) eqn:Hv; cbn.
  - find_branch.
  - split; [left; repeat split; reflexivity|].
    intros _ Hp. discriminate (Hp eq_refl).
Qed.

(** The Huma [GetAllTodos]: a failure is always answered with status 500,
    and comes from a priority filter outside the enumeration, named in the
    detail, or from a failed read; a response counts its entries and shows
    live rows of the table only; and a store that answers reads gets a
    response whenever the priority filter is empty or valid. *)
Theorem huma_GetAllTodos_status (statement_text : string)
    (input : handler.TodoQueryRequest) (db : gorm.DB) :
  let p := handler.query_Priority input in
  let reply := handler.HumaTodoHandler.GetAllTodos statement_text input db in
  (forall e, reply = handler.Failure e ->
     handler.Status e = 500 /\
     ((p <> EmptyString /\ IsValid p = false /\
       handler.Detail e = "無効な優先度です: " ++ p) \/
      gorm.read_fault db = true)) /\
  (forall r, reply = handler.Response r ->
     handler.list_Count r = Z.of_nat (length (handler.list_Data r)) /\
     exists todos,
       handler.list_Data r = map ToResponse todos /\
       Forall (fun t => In t (gorm.todos db) /\ Todo.DeletedAt t = None) todos) /\
  (gorm.read_fault db = false -> p = EmptyString \/ IsValid p = true ->
     exists r, reply = handler.Response r).
Proof.
  intros p reply. subst p reply. unfold handler.HumaTodoHandler.GetAllTodos.
  set (listing := if negb _ then _ else _).
  assert (listing = GetAllTodos db \/ listing = GetCompletedTodos db \/
          listing = GetPendingTodos db \/
          (listing = GetTodosByPriority (handler.query_Priority input) db /\
           handler.query_Priority input <> EmptyString)) as Hwhich.
  { subst listing.
    destruct (String.eqb_spec (handler.query_Priority input) EmptyString); cbn.
    - destruct (negb _); [|tauto].
      destruct (String.eqb _ "true"); [tauto|].
      destruct (String.eqb _ "false"); tauto.
    - tauto. }
  assert (listing = GetAllTodos db \/ listing = GetCompletedTodos db \/
          listing = GetPendingTodos db \/
          listing = GetTodosByPriority (handler.query_Priority input) db)
    as Hany by tauto.
  destruct (listing_shape db _ listing Hany) as [Hshape Hreturns].
  split; [|split].
  - intros e. destruct listing as [l|err]; [discriminate|].
    intros [= <-]. split; [reflexivity|].
    destruct Hshape as [(Hby & Hbad & ->) | Hread]; [left | right; exact Hread].
    split; [|split; [exact Hbad | reflexivity]].
    destruct Hwhich as [H | [H | [H | [_ H]]]]; try exact H;
      exfalso; rewrite H in Hby;
      unfold GetAllTodos, GetCompletedTodos, GetPendingTodos, GetTodosByPriority,
             gorm.Find in Hby;
      rewrite Hbad in Hby; destruct (gorm.read_fault db); discriminate Hby.
  - intros r. destruct listing as [l|err]; [|discriminate].
    intros [= <-]. cbn. split; [reflexivity|]. exists l. split; [reflexivity|].
    exact Hshape.
  - intros Hread Hp.
    destruct Hreturns as [l Hl]; [exact Hread | |rewrite Hl; eauto].
    intros Hby. destruct Hp as [Hp | Hp]; [|exact Hp].
    destruct Hwhich as [H | [H | [H | [_ H]]]]; try contradiction;
      exfalso; rewrite H in Hby;
      unfold GetAllTodos, GetCompletedTodos, GetPendingTodos, GetTodosByPriority,
             gorm.Find in Hby;
      rewrite Hp, Hread in Hby; discriminate Hby.
Qed.

Lemma huma_GetAllTodos_status_witness :
  (forall e,
     handler.HumaTodoHandler.GetAllTodos "connection refused" (handler.mkQuery "invalid" "true")
                         sample_db = handler.Failure e ->
     handler.Status e = 500) /\
  (forall r,
     handler.HumaTodoHandler.GetAllTodos "connection refused" (handler.mkQuery EmptyString "false")
                         sample_db = handler.Response r ->
     handler.list_Count r = Z.of_nat (length (handler.list_Data r))) /\
  exists r,
    handler.HumaTodoHandler.GetAllTodos "connection refused" (handler.mkQuery "high" EmptyString)
                        sample_db = handler.Response r.
Proof.
  split; [|split].
  - intros e He.
    destruct (huma_GetAllTodos_status "connection refused"
                (handler.mkQuery "invalid" "true") sample_db) as (Hfail & _).
    apply (Hfail e He).
  - intros r Hr.
    destruct (huma_GetAllTodos_status "connection refused"
                (handler.mkQuery EmptyString "false") sample_db) as (_ & Hresp & _).
    apply (Hresp r Hr).
  - destruct (huma_GetAllTodos_status "connection refused"
                (handler.mkQuery "high" EmptyString) sample_db) as (_ & _ & Hret).
    apply Hret; [reflexivity | right; reflexivity].
Defined.

(** Which listing the Huma [GetAllTodos] serves: a non-empty priority
    filter decides alone, whatever [completed] says; without one, a
    [completed] value other than "true" and "false" is ignored and the
    full listing served. *)
Theorem huma_GetAllTodos_filters (statement_text : string) (p c : string)
    (db : gorm.DB) :
  (p <> EmptyString ->
     handler.HumaTodoHandler.GetAllTodos statement_text (handler.mkQuery p c) db
     = handler.HumaTodoHandler.GetAllTodos statement_text (handler.mkQuery p EmptyString) db) /\
  (c <> "true" -> c <> "false" ->
     handler.HumaTodoHandler.GetAllTodos statement_text (handler.mkQuery EmptyString c) db
     = handler.HumaTodoHandler.GetAllTodos statement_text
         (handler.mkQuery EmptyString EmptyString) db).
Proof.
  unfold handler.HumaTodoHandler.GetAllTodos; cbn. split.
  - intros Hp. apply String.eqb_neq in Hp. now rewrite Hp.
  - intros Ht Hf. apply String.eqb_neq in Ht, Hf. rewrite Ht, Hf.
    now destruct (negb _).
Qed.

Lemma huma_GetAllTodos_filters_witness :
  handler.HumaTodoHandler.GetAllTodos "connection refused" (handler.mkQuery "high" "true") sample_db
    = handler.HumaTodoHandler.GetAllTodos "connection refused" (handler.mkQuery "high" EmptyString)
                          sample_db /\
  handler.HumaTodoHandler.GetAllTodos "connection refused" (handler.mkQuery EmptyString "yes")
                      sample_db
    = handler.HumaTodoHandler.GetAllTodos "connection refused"
        (handler.mkQuery EmptyString EmptyString) sample_db.
Proof.
  split.
  - apply (huma_GetAllTodos_filters "connection refused" "high" "true" sample_db).
    discriminate.
  - apply (huma_GetAllTodos_filters "connection refused" "high" "yes" sample_db);
      discriminate.
Defined.

(** ** Properties of the router handlers *)

(** *** Identifiers in the path *)

(** One digit of [digits_value]: evaluate the byte and the range test. *)
Ltac digit_step :=
  match goal with
  | |- context [N_of_ascii ?c] =>
    let v := eval vm_compute in (N_of_ascii c) in
    change (N_of_ascii c) with v
  end;
  match goal with
  | |- (if ?b then _ else _) = _ =>
    let v := eval vm_compute in b in change b with v; cbv iota
  end.

Lemma digits_value_acc (u : Decimal.uint) (a : positive) :
  strconv.digits_value (N.pos a) (NilEmpty.string_of_uint u)
  = Some (N.pos (Pos.of_uint_acc u a)).
Proof.
  revert a. induction u; intros a;
    cbn [NilEmpty.string_of_uint strconv.digits_value Pos.of_uint_acc];
    [reflexivity|..];
    digit_step; rewrite <- IHu; f_equal; lia.
Qed.

Lemma digits_value_of_uint (u : Decimal.uint) :
  strconv.digits_value 0 (NilEmpty.string_of_uint u) = Some (Pos.of_uint u).
Proof.
  induction u; cbn [NilEmpty.string_of_uint strconv.digits_value Pos.of_uint];
    [reflexivity|..]; digit_step;
    first [exact IHu | rewrite <- digits_value_acc; f_equal].
Qed.

(** Parsing the decimal text of a number gives the number back when it fits
    32 bits, and an error when it does not. *)
Lemma ParseUint_of_fmt_d (n : N) :
  strconv.ParseUint_10_32 (fmt.d n)
  = if n <=? 4294967295 then Some n else None.
Proof.
  unfold strconv.ParseUint_10_32.
  destruct (fmt_d_starts_with_digit n) as (c & s & Hs & _).
  assert (strconv.digits_value 0 (fmt.d n) = Some n) as Hv.
  { unfold fmt.d, NilZero.string_of_uint.
    pose proof (to_uint_not_Nil n) as Hn.
    pose proof (DecimalN.Unsigned.of_to n) as Hof. unfold N.of_uint in Hof.
    destruct (N.to_uint n) eqn:Hu; try contradiction;
      now rewrite digits_value_of_uint, Hof. }
  rewrite Hv, Hs. reflexivity.
Qed.

Lemma digits_value_all_digits (s : string) (acc n : N) :
  strconv.digits_value acc s = Some n -> all_digits s = true.
Proof.
  revert acc. induction s as [|c s IH]; intros acc; cbn; [reflexivity|].
  unfold is_digit. destruct (_ && _); [|discriminate]. apply IH.
Qed.

Lemma ParseUint_Some (s : string) (n : N) :
  strconv.ParseUint_10_32 s = Some n ->
  s <> EmptyString /\ all_digits s = true /\ n <= 4294967295.
Proof.
  unfold strconv.ParseUint_10_32. destruct s as [|c s]; [discriminate|].
  destruct (strconv.digits_value 0 (String c s)) as [m|] eqn:Hv; [|discriminate].
  destruct (N.leb_spec m 4294967295); [|discriminate].
  intros [= <-]. split; [discriminate|]. split; [|assumption].
  now apply digits_value_all_digits in Hv.
Qed.

(** *** The test for "not found" by substring *)

Lemma Contains_app_r (a b needle : string) :
  gostrings.Contains b needle = true -> gostrings.Contains (a ++ b) needle = true.
Proof.
  intros Hb. induction a as [|c a IH]; [exact Hb|].
  change (String c a ++ b) with (String c (a ++ b)).
  cbn [gostrings.Contains]. rewrite IH. apply orb_true_r.
Qed.

Lemma not_found_is_recognised (statement_text : string) (id : N) :
  gostrings.Contains (handler.Error_text statement_text (NotFoundError id))
                     "見つかりません" = true.
Proof.
  cbn [handler.Error_text]. apply Contains_app_r, Contains_app_r. reflexivity.
Qed.

Lemma validation_text_contains (statement_text : string) (p : Priority) :
  gostrings.Contains (handler.Error_text statement_text (ValidationError p))
                     "見つかりません"
  = gostrings.Contains p "見つかりません".
Proof. reflexivity. Qed.

Lemma store_text_contains (statement_text : string) (op : operation) :
  op = Fetch \/ op = Update \/ op = Remove ->
  gostrings.Contains
    (handler.Error_text statement_text (StoreError op gorm.ErrStatement))
    "見つかりません"
  = gostrings.Contains statement_text "見つかりません".
Proof. intros [-> | [-> | ->]]; reflexivity. Qed.

Lemma mux_not_found_text (statement_text : string) (n : N) :
  handler.Error_text statement_text (NotFoundError n)
  = "ID " ++ fmt.d n ++ " のTodoが見つかりません".
Proof. reflexivity. Qed.

(** The router [GetTodoByID] and [DeleteTodo] on the path variable [id].
    Text that is empty, has a byte that is no digit, or is the decimal form
    of a number above 4294967295 is answered with status 400 and the store
    is not touched, a live row under that number or not. The decimal form
    of a number up to that bound reaches the service: a live row is
    answered with its response form, a missing or soft-deleted one with
    status 404. *)
Theorem mux_identifier_checked {B : Type} (statement_text : string)
    (r : handler.TodoHandler.Request B) (db : gorm.DB) (s : string) :
  handler.TodoHandler.Vars r !! "id" = Some s ->
  (s = EmptyString \/ all_digits s = false \/
   (exists n, s = fmt.d n /\ 4294967295 < n) ->
     handler.TodoHandler.GetTodoByID statement_text r db
       = handler.TodoHandler.sendErrorResponse "無効なID形式です" 400 /\
     handler.TodoHandler.DeleteTodo statement_text r db
       = (db, handler.TodoHandler.sendErrorResponse "無効なID形式です" 400)) /\
  (forall n, s = fmt.d n -> n <= 4294967295 -> gorm.read_fault db = false ->
     (live_entity n db ->
        exists todo,
          handler.TodoHandler.GetTodoByID statement_text r db
            = handler.TodoHandler.sendSuccessResponse
                (handler.TodoHandler.OneTodo (ToResponse todo))
                "Todoを取得しました" None /\
          In todo (gorm.todos db) /\ Todo.DeletedAt todo = None /\
          Todo.ID todo = n) /\
     (~ live_entity n db ->
        handler.TodoHandler.GetTodoByID statement_text r db
          = handler.TodoHandler.sendErrorResponse
              ("ID " ++ fmt.d n ++ " のTodoが見つかりません") 404 /\
        handler.TodoHandler.DeleteTodo statement_text r db
          = (db, handler.TodoHandler.sendErrorResponse
                   ("ID " ++ fmt.d n ++ " のTodoが見つかりません") 404))).
Proof.
  intros Hvar. unfold handler.TodoHandler.GetTodoByID, handler.TodoHandler.DeleteTodo.
  rewrite Hvar. split.
  - intros Hbad.
    assert (strconv.ParseUint_10_32 s = None) as ->; [|split; reflexivity].
    destruct (strconv.ParseUint_10_32 s) as [m|] eqn:Hparse; [|reflexivity].
    exfalso. destruct Hbad as [-> | [Hd | (n & -> & Hn)]].
    + discriminate Hparse.
    + apply ParseUint_Some in Hparse as (_ & Hd' & _). congruence.
    + rewrite ParseUint_of_fmt_d in Hparse.
      destruct (N.leb_spec n 4294967295); [lia | discriminate].
  - intros n -> Hn Hread. rewrite ParseUint_of_fmt_d.
    destruct (N.leb_spec n 4294967295); [|lia]. split.
    + intros Hlive.
      destruct (GetTodoByID_fetches_live n db Hread Hlive)
        as (todo & -> & Hin & Hdel & Hid).
      exists todo. repeat split; assumption.
    + intros Hnone. unfold DeleteTodo.
      rewrite (GetTodoByID_missing n db Hread Hnone).
      rewrite not_found_is_recognised. split; reflexivity.
Qed.

Lemma mux_identifier_checked_witness :
  handler.TodoHandler.GetTodoByID "connection refused"
    (handler.TodoHandler.mkRequest (B := unit) ∅ {["id" := "4294967296"]} None)
    sample_db
  = handler.TodoHandler.sendErrorResponse "無効なID形式です" 400 /\
  handler.TodoHandler.GetTodoByID "connection refused"
    (handler.TodoHandler.mkRequest (B := unit) ∅ {["id" := "1x"]} None)
    sample_db
  = handler.TodoHandler.sendErrorResponse "無効なID形式です" 400 /\
  (exists todo,
     handler.TodoHandler.GetTodoByID "connection refused"
       (handler.TodoHandler.mkRequest (B := unit) ∅ {["id" := "1"]} None)
       sample_db
     = handler.TodoHandler.sendSuccessResponse
         (handler.TodoHandler.OneTodo (ToResponse todo))
         "Todoを取得しました" None /\
     In todo (gorm.todos sample_db) /\ Todo.DeletedAt todo = None /\
     Todo.ID todo = 1).
Proof.
  split; [|split].
  - apply (mux_identifier_checked "connection refused"
             (handler.TodoHandler.mkRequest (B := unit) ∅
                {["id" := "4294967296"]} None)
             sample_db "4294967296"); [reflexivity|].
    right. right. exists 4294967296. split; [reflexivity | reflexivity].
  - apply (mux_identifier_checked "connection refused"
             (handler.TodoHandler.mkRequest (B := unit) ∅ {["id" := "1x"]} None)
             sample_db "1x"); [reflexivity|].
    right. left. reflexivity.
  - assert (handler.TodoHandler.Vars
              (handler.TodoHandler.mkRequest (B := unit) ∅ {["id" := "1"]} None)
            !! "id" = Some "1") as Hvar by reflexivity.
    destruct (mux_identifier_checked "connection refused" _ sample_db "1" Hvar)
      as [_ Hok].
    apply (Hok 1); [reflexivity | cbv; discriminate | reflexivity
                   | exact sample_db_live_1].
Defined.

(** The router [UpdateTodo], the path variable parsed and the body decoded:
    a missing or soft-deleted row is answered with status 404; a priority
    outside the enumeration with status 400, unless its text contains
    "見つかりません", which turns the answer into a 404; a failing store
    with status 400, or 404 when the store's own error text contains those
    words. The store is left as it was in each of these. Otherwise the
    response carries the entity the service returned. *)
Theorem mux_UpdateTodo_status (statement_text : string)
    (r : handler.TodoHandler.Request TodoUpdateRequest.t) (db : gorm.DB)
    (n : N) (body : TodoUpdateRequest.t) :
  handler.TodoHandler.Vars r !! "id" = Some (fmt.d n) -> n <= 4294967295 ->
  handler.TodoHandler.Body r = Some body ->
  let reply := handler.TodoHandler.UpdateTodo statement_text r db in
  let answer := handler.TodoHandler.sendErrorResponse in
  (gorm.read_fault db = false -> ~ live_entity n db ->
     reply = (db, answer ("ID " ++ fmt.d n ++ " のTodoが見つかりません") 404)) /\
  (forall p, gorm.read_fault db = false -> live_entity n db ->
     TodoUpdateRequest.Priority body = Some p -> IsValid p = false ->
     reply = (db, answer ("無効な優先度です: " ++ p)
                         (if gostrings.Contains p "見つかりません"
                          then 404 else 400))) /\
  (gorm.read_fault db = true \/
   (live_entity n db /\
    (forall p, TodoUpdateRequest.Priority body = Some p -> IsValid p = true) /\
    gorm.write_fault db = true) ->
     exists text,
       reply = (db, answer text
                           (if gostrings.Contains statement_text "見つかりません"
                            then 404 else 400))) /\
  (gorm.read_fault db = false -> live_entity n db ->
   (forall p, TodoUpdateRequest.Priority body = Some p -> IsValid p = true) ->
   gorm.write_fault db = false ->
     exists db' new,
       UpdateTodo n body db = (db', Ok new) /\
       reply = (db', handler.TodoHandler.sendSuccessResponse
                       (handler.TodoHandler.OneTodo (ToResponse new))
                       "Todoを更新しました" None)).
Proof.
  intros Hvar Hn Hbody reply answer. subst reply answer.
  unfold handler.TodoHandler.UpdateTodo.
  rewrite Hvar, ParseUint_of_fmt_d, Hbody.
  destruct (N.leb_spec n 4294967295); [|lia].
  split; [|split; [|split]].
  - intros Hread Hnone. unfold UpdateTodo.
    rewrite (GetTodoByID_missing n db Hread Hnone).
    now rewrite not_found_is_recognised.
  - intros p Hread Hlive Hp Hbad.
    destruct (GetTodoByID_live n db Hread Hlive) as [old Hget].
    rewrite (UpdateTodo_fetched _ _ _ _ Hget), (apply_update_rejects _ _ _ Hp Hbad).
    rewrite validation_text_contains.
    now destruct (gostrings.Contains p _).
  - intros [Hread | (Hlive & Hp & Hwrite)].
    + unfold UpdateTodo. rewrite GetTodoByID_unfold, Hread.
      rewrite store_text_contains by tauto.
      destruct (gostrings.Contains statement_text _); eauto.
    + destruct (gorm.read_fault db) eqn:Hread.
      * unfold UpdateTodo. rewrite GetTodoByID_unfold, Hread.
        rewrite store_text_contains by tauto.
        destruct (gostrings.Contains statement_text _); eauto.
      * destruct (GetTodoByID_live n db Hread Hlive) as [old Hget].
        rewrite (UpdateTodo_fetched _ _ _ _ Hget), (apply_update_merges _ _ Hp),
          Hwrite.
        rewrite store_text_contains by tauto.
        destruct (gostrings.Contains statement_text _); eauto.
  - intros Hread Hlive Hp Hwrite.
    destruct (GetTodoByID_live n db Hread Hlive) as [old Hget].
    rewrite (UpdateTodo_fetched _ _ _ _ Hget), (apply_update_merges _ _ Hp), Hwrite.
    eauto.
Qed.

Lemma mux_UpdateTodo_status_witness :
  handler.TodoHandler.UpdateTodo "connection refused"
    (handler.TodoHandler.mkRequest ∅ {["id" := "1"]}
       (Some (TodoUpdateRequest.mk None None None (Some "見つかりません") None)))
    sample_db
  = (sample_db,
     handler.TodoHandler.sendErrorResponse
       ("無効な優先度です: " ++ "見つかりません") 404) /\
  handler.TodoHandler.UpdateTodo "connection refused"
    (handler.TodoHandler.mkRequest ∅ {["id" := "1"]}
       (Some (TodoUpdateRequest.mk None None None (Some "invalid") None)))
    sample_db
  = (sample_db,
     handler.TodoHandler.sendErrorResponse ("無効な優先度です: " ++ "invalid") 400).
Proof.
  split.
  - eapply (mux_UpdateTodo_status "connection refused"
             (handler.TodoHandler.mkRequest ∅ {["id" := "1"]}
                (Some (TodoUpdateRequest.mk None None None
                         (Some "見つかりません") None)))
             sample_db 1 _);
      [reflexivity | cbv; discriminate | reflexivity | reflexivity
      | exact sample_db_live_1 | reflexivity | reflexivity].
  - eapply (mux_UpdateTodo_status "connection refused"
             (handler.TodoHandler.mkRequest ∅ {["id" := "1"]}
                (Some (TodoUpdateRequest.mk None None None (Some "invalid") None)))
             sample_db 1 _);
      [reflexivity | cbv; discriminate | reflexivity | reflexivity
      | exact sample_db_live_1 | reflexivity | reflexivity].
Defined.

(** *** What goes out on the wire *)

Lemma sendErrorResponse_json (message : string) (code : N) :
  json_reply (handler.TodoHandler.sendErrorResponse message code) code.
Proof. split; [reflexivity|]. cbn. apply lookup_insert_eq. Qed.

Lemma sendSuccessResponse_json (d : handler.TodoHandler.data) (message : string)
    (count : option Z) :
  json_reply (handler.TodoHandler.sendSuccessResponse d message count) 200.
Proof. split; [reflexivity|]. cbn. apply lookup_insert_eq. Qed.

Lemma send_listing_json (statement_text : string)
    (listing : result (list Todo.t)) :
  exists code,
    json_reply (handler.TodoHandler.send_listing statement_text listing) code.
Proof.
  destruct listing; cbn [handler.TodoHandler.send_listing];
    eauto using sendErrorResponse_json, sendSuccessResponse_json.
Qed.

(** Every reply of the router binding goes out with a status and declares
    itself JSON, with one exception: when [CreateTodo] succeeds, status 201
    is written before the content type is set, so the reply goes out as 201
    and the JSON content type set afterwards is not sent with it. Every
    failure of [CreateTodo] (undecodable body, blank title, refused
    priority, failing store) goes out as a JSON 400 with the table as it
    was. *)
Theorem mux_replies_declare_json {B : Type} (TrimSpace : string -> string)
    (statement_text : string) (r : handler.TodoHandler.Request B)
    (ru : handler.TodoHandler.Request TodoUpdateRequest.t)
    (rc : handler.TodoHandler.Request TodoCreateRequest.t) (db : gorm.DB) :
  (exists code,
     json_reply (handler.TodoHandler.GetAllTodos statement_text r db) code) /\
  (exists code,
     json_reply (handler.TodoHandler.GetTodoByID statement_text r db) code) /\
  (exists code,
     json_reply (snd (handler.TodoHandler.DeleteTodo statement_text r db)) code) /\
  (exists code,
     json_reply (snd (handler.TodoHandler.UpdateTodo statement_text ru db)) code) /\
  let w := snd (handler.TodoHandler.CreateTodo TrimSpace statement_text rc db) in
  (json_reply w 400 /\
   gorm.todos (fst (handler.TodoHandler.CreateTodo TrimSpace statement_text rc db))
   = gorm.todos db) \/
  (handler.TodoHandler.status_sent w = Some 201 /\
   handler.TodoHandler.headers_sent w ∅ = ∅ /\
   exists req todo,
     handler.TodoHandler.Body rc = Some req /\
     TrimSpace (TodoCreateRequest.Title req) <> EmptyString /\
     snd (CreateTodo req db) = Ok todo).
Proof.
  split; [|split; [|split; [|split]]].
  - unfold handler.TodoHandler.GetAllTodos.
    destruct (negb _); [apply send_listing_json|].
    destruct (negb _); [|apply send_listing_json].
    destruct (String.eqb _ "true"); [apply send_listing_json|].
    destruct (String.eqb _ "false"); [apply send_listing_json|].
    eauto using sendErrorResponse_json.
  - unfold handler.TodoHandler.GetTodoByID.
    destruct (_ !! "id"); [|eauto using sendErrorResponse_json].
    destruct (strconv.ParseUint_10_32 _); [|eauto using sendErrorResponse_json].
    destruct (GetTodoByID _ db); [eauto using sendSuccessResponse_json|].
    destruct (gostrings.Contains _ _); eauto using sendErrorResponse_json.
  - unfold handler.TodoHandler.DeleteTodo.
    destruct (_ !! "id"); [|cbn; eauto using sendErrorResponse_json].
    destruct (strconv.ParseUint_10_32 _);
      [|cbn; eauto using sendErrorResponse_json].
    destruct (DeleteTodo _ db) as [db' [[]|e]]; cbn;
      [eauto using sendSuccessResponse_json|].
    destruct (gostrings.Contains _ _); cbn; eauto using sendErrorResponse_json.
  - unfold handler.TodoHandler.UpdateTodo.
    destruct (_ !! "id"); [|cbn; eauto using sendErrorResponse_json].
    destruct (strconv.ParseUint_10_32 _);
      [|cbn; eauto using sendErrorResponse_json].
    destruct (handler.TodoHandler.Body ru);
      [|cbn; eauto using sendErrorResponse_json].
    destruct (UpdateTodo _ _ db) as [db' [todo|e]]; cbn;
      [eauto using sendSuccessResponse_json|].
    destruct (gostrings.Contains _ _); cbn; eauto using sendErrorResponse_json.
  - cbn zeta. unfold handler.TodoHandler.CreateTodo.
    destruct (handler.TodoHandler.Body rc) as [req|] eqn:Hbody;
      [|left; split; [apply sendErrorResponse_json | reflexivity]].
    destruct (String.eqb_spec (TrimSpace (TodoCreateRequest.Title req)) EmptyString)
      as [Hblank|Htitle];
      [left; split; [apply sendErrorResponse_json | reflexivity]|].
    destruct (CreateTodo_outcome req db)
      as [(req' & db' & e' & Hc & Hrows & _) | (req' & todo & _ & Hc & _)];
      rewrite Hc; cbn.
    + left. split; [apply sendErrorResponse_json | exact Hrows].
    + right. split; [reflexivity|]. split; [reflexivity|].
      exists req, todo. split; [reflexivity|]. split; [exact Htitle|].
      now rewrite Hc.
Qed.

(** *** The two bindings side by side *)

(** The list endpoint of the two bindings. Whenever the priority filter is
    not empty, or [completed] is empty, "true" or "false", the router
    binding sends exactly what the Huma binding returns: the same entries,
    message and count, or the same status and detail. On any other
    [completed] value without a priority filter they part: the router
    binding answers with status 400, the Huma binding serves the full
    listing. *)
Theorem list_bindings_compared {B : Type} (statement_text : string)
    (r : handler.TodoHandler.Request B) (db : gorm.DB) :
  let p := handler.TodoHandler.Query_Get "priority" (handler.TodoHandler.Query r) in
  let c := handler.TodoHandler.Query_Get "completed" (handler.TodoHandler.Query r) in
  let huma :=
    handler.HumaTodoHandler.GetAllTodos statement_text (handler.mkQuery p c) db in
  let mux := handler.TodoHandler.GetAllTodos statement_text r db in
  (p <> EmptyString \/ c = EmptyString \/ c = "true" \/ c = "false" ->
     mux = match huma with
           | handler.Response l =>
             handler.TodoHandler.sendSuccessResponse
               (handler.TodoHandler.ManyTodos (handler.list_Data l))
               (handler.list_Message l) (Some (handler.list_Count l))
           | handler.Failure e =>
             handler.TodoHandler.sendErrorResponse
               (handler.Detail e) (handler.Status e)
           end) /\
  (p = EmptyString -> c <> EmptyString -> c <> "true" -> c <> "false" ->
     handler.TodoHandler.status_sent mux = Some 400 /\
     huma = handler.HumaTodoHandler.GetAllTodos statement_text
              (handler.mkQuery EmptyString EmptyString) db).
Proof.
  cbn zeta.
  unfold handler.TodoHandler.GetAllTodos, handler.HumaTodoHandler.GetAllTodos.
  cbn [handler.query_Priority handler.query_Completed].
  set (p := handler.TodoHandler.Query_Get "priority" _).
  set (c := handler.TodoHandler.Query_Get "completed" _).
  split.
  - intros Hsame.
    destruct (String.eqb_spec p EmptyString) as [Hp|Hp]; cbn [negb].
    + destruct (String.eqb_spec c EmptyString) as [Hc|Hc]; cbn [negb].
      * now destruct (GetAllTodos db).
      * destruct (String.eqb_spec c "true") as [Ht|Ht];
          [now destruct (GetCompletedTodos db)|].
        destruct (String.eqb_spec c "false") as [Hf|Hf];
          [now destruct (GetPendingTodos db)|].
        tauto.
    + now destruct (GetTodosByPriority p db).
  - intros Hp Hc Ht Hf.
    apply String.eqb_neq in Hc, Ht, Hf. rewrite Hp, Hc, Ht, Hf. cbn.
    split; reflexivity.
Qed.

Lemma list_bindings_compared_witness :
  handler.TodoHandler.GetAllTodos "connection refused"
    (handler.TodoHandler.mkRequest (B := unit) {["completed" := ["false"]]} ∅ None)
    sample_db
  = handler.TodoHandler.sendSuccessResponse
      (handler.TodoHandler.ManyTodos [ToResponse row_low; ToResponse row_high])
      "Todoリストを取得しました" (Some 2%Z) /\
  handler.TodoHandler.status_sent
    (handler.TodoHandler.GetAllTodos "connection refused"
       (handler.TodoHandler.mkRequest (B := unit) {["completed" := ["yes"]]} ∅ None)
       sample_db) = Some 400.
Proof.
  split.
  - destruct (list_bindings_compared "connection refused"
                (handler.TodoHandler.mkRequest (B := unit)
                   {["completed" := ["false"]]} ∅ None) sample_db) as [Hsame _].
    rewrite Hsame; [reflexivity|]. right. right. right. reflexivity.
  - destruct (list_bindings_compared "connection refused"
                (handler.TodoHandler.mkRequest (B := unit)
                   {["completed" := ["yes"]]} ∅ None) sample_db) as [_ Hpart].
    apply Hpart; [reflexivity | | | ]; vm_compute; discriminate.
Defined.

(** *** The statements without premises, run on the sample table *)

Lemma DeleteTodo_never_already_deleted_witness :
  snd (DeleteTodo 1 sample_db) <> Err (AlreadyDeletedError 1) /\
  snd (DeleteTodo 4 sample_db) <> Err (AlreadyDeletedError 4).
Proof.
  split.
  - apply (DeleteTodo_never_already_deleted 1 1 sample_db).
  - apply (DeleteTodo_never_already_deleted 4 4 sample_db).
Defined.

Lemma rows_stay_witness :
  ids (fst (UpdateTodo 1 TodoUpdateRequest.empty sample_db)) = ids sample_db /\
  ids (fst (DeleteTodo 1 sample_db)) = ids sample_db.
Proof.
  destruct (rows_stay 1 TodoUpdateRequest.empty (buy_milk "high") sample_db)
    as (Hu & _ & Hd & _).
  split; [exact Hu | exact Hd].
Defined.

Lemma GetDefaultConfig_never_empty_witness :
  database.Password (database.GetDefaultConfig {["DB_PASSWORD" := EmptyString]})
    <> EmptyString /\
  database.GetDefaultConfig (<["DB_PASSWORD" := EmptyString]> ∅)
    = database.GetDefaultConfig (delete "DB_PASSWORD" ∅).
Proof.
  split.
  - apply (GetDefaultConfig_never_empty {["DB_PASSWORD" := EmptyString]}
             "DB_PASSWORD").
  - apply (GetDefaultConfig_never_empty ∅ "DB_PASSWORD").
Defined.

Lemma mux_replies_declare_json_witness :
  exists code,
    json_reply
      (handler.TodoHandler.GetTodoByID "connection refused"
         (handler.TodoHandler.mkRequest (B := unit) ∅ {["id" := "1"]} None)
         sample_db) code.
Proof.
  apply (mux_replies_declare_json (fun s => s) "connection refused"
           (handler.TodoHandler.mkRequest (B := unit) ∅ {["id" := "1"]} None)
           (handler.TodoHandler.mkRequest ∅ ∅ None)
           (handler.TodoHandler.mkRequest ∅ ∅ None) sample_db).
Defined.

(** The router [CreateTodo] on the sample table, with a body that decodes
    and a title that is not blank: status 201, and nothing in the header
    map when it goes out. *)
Example mux_CreateTodo_created :
  let w :=
    snd (handler.TodoHandler.CreateTodo (fun s => s) "connection refused"
           (handler.TodoHandler.mkRequest ∅ ∅ (Some (buy_milk "high")))
           sample_db) in
  handler.TodoHandler.status_sent w = Some 201 /\
  handler.TodoHandler.headers_sent w ∅ = ∅.
Proof. split; reflexivity. Qed.
